(** * Lennard-Jones baseline and composite export wrapper

    A shallow embedding of the potential-evaluation code of the tutorial
    notebook "Improving the model with a LJ baseline":

    - [LennardJones.__init__] : the species-pair parameter table,
    - [LennardJones.forward]  : the loop over the neighbors list,
    - [ExportWrapper.forward] : the sum of the baseline and of the learned
      model,

    and of the learned model itself, [SOAPModel], with the export wrapper
    and the training cell of the first notebook.

    Python dictionaries are [gmap]s, tensors are lists of scalars, Python
    exceptions are the [Err] results of an error monad, and the learned
    model (a [torch.nn.Module] owned by the wrapper) is a state-passing
    function.  Floating-point arithmetic is an interface, [Arith], which
    keeps the operations on Python floats apart from those on tensors where
    they round differently; its instance [float64] is IEEE binary64 on
    Rocq's primitive floats. *)

From Stdlib Require Import ZArith Bool Floats.
From stdpp Require Import base option list gmap strings.

Local Open Scope Z_scope.

(** ** Python exceptions and the error monad *)

Inductive pykey : Type :=
| IntKey (k : Z)
| StrKey (k : string).

Inductive exn : Type :=
| KeyError (k : pykey)        (* missing dictionary key *)
| IndexError                  (* tensor index out of range *)
| ValueError                  (* math.sqrt of a negative number, no neighbors list *)
| ZeroDivisionError           (* float division by zero *)
| OverflowError               (* float ** int out of range *)
| RuntimeError                (* torch: reshape to an incompatible shape *)
| Raised (name : string).     (* any other exception, by class name *)

Inductive result (A : Type) : Type :=
| Ok (a : A)
| Err (e : exn).
Arguments Ok {A} a.
Arguments Err {A} e.

#[export] Instance result_ret : MRet result := λ A, @Ok A.

#[export] Instance result_bind : MBind result := λ A B k m,
  match m with
  | Ok a => k a
  | Err e => Err e
  end.

Definition is_ok {A : Type} (m : result A) : bool :=
  match m with Ok _ => true | Err _ => false end.

(** ** Floating-point arithmetic

    Python floats and [float64] tensors are both IEEE binary64: sums,
    differences, products, quotients and square roots are rounded once, in
    the constructor (Python arithmetic) as in the pair loop (tensor
    arithmetic).  The power is a library function on both sides, the C
    library's [pow] for a Python float and torch's [pow] for a tensor, and
    the two need not agree: [fpow] is the first, [tpow] the second.  The
    operations themselves never raise; the Python operators that do are
    derived below, and so is the division of a Python float by a tensor. *)

Class Arith (F : Type) : Type := {
  of_int : Z → F;               (* an integer literal or tensor entry as a float *)
  fadd : F → F → F;
  fsub : F → F → F;
  fmul : F → F → F;
  fdiv : F → F → F;
  fsqrt : F → F;
  fpow : F → Z → F;             (* x ** n, x a Python float, n an integer literal *)
  tpow : F → Z → F;             (* t ** n = torch.pow(t, n), t a tensor *)
  feqb : F → F → bool;          (* == *)
  fltb : F → F → bool;          (* < *)
  fis_inf : F → bool;           (* math.isinf *)
}.

Section PythonFloat.
Context {F : Type} `{Arith F}.

(** [a / b] on Python floats. *)
Definition py_div (a b : F) : result F :=
  if feqb b (of_int 0) then Err ZeroDivisionError else Ok (fdiv a b).

(** [math.sqrt(x)]. *)
Definition py_sqrt (x : F) : result F :=
  if fltb x (of_int 0) then Err ValueError else Ok (fsqrt x).

(** [x ** n] on a Python float, [n] a positive integer literal. *)
Definition py_pow (x : F) (n : Z) : result F :=
  let r := fpow x n in
  if fis_inf r && negb (fis_inf x) then Err OverflowError else Ok r.
End PythonFloat.

(** *** IEEE binary64 *)

(** An integer below 2^63 in absolute value as a float. *)
Definition float_of_Z (z : Z) : float :=
  if z <? 0 then PrimFloat.opp (PrimFloat.of_uint63 (Uint63.of_Z (- z)))
  else PrimFloat.of_uint63 (Uint63.of_Z z).

(** Neither [pow] has a counterpart among the primitive operations.  The
    instance takes for both the correctly rounded power, for a positive
    integer exponent: the mantissa is raised exactly, then rounded to the
    nearest float; an overflow gives infinity.  A library's [pow] returns
    this float or, now and then, one of its two neighbours.  In the concrete
    systems below every power is therefore a float itself, or less than
    2^-46 of a unit in the last place away from one. *)
Definition float_pow (x : float) (n : Z) : float :=
  match n with
  | Z.pos _ =>
      match Prim2SF x with
      | S754_finite s m e =>
          let mn := Z.pos m ^ n in
          SF2Prim (binary_normalize prec emax
                     (if s && Z.odd n then - mn else mn) (e * n) false)
      | S754_zero s => if s && Z.odd n then (-0)%float else 0%float
      | S754_infinity s => if s && Z.odd n then neg_infinity else infinity
      | S754_nan => nan
      end
  | _ => 1%float
  end.

Definition float_is_inf (x : float) : bool :=
  PrimFloat.eqb (PrimFloat.abs x) PrimFloat.infinity.

#[export] Instance float64 : Arith float := {
  of_int := float_of_Z;
  fadd := PrimFloat.add;
  fsub := PrimFloat.sub;
  fmul := PrimFloat.mul;
  fdiv := PrimFloat.div;
  fsqrt := PrimFloat.sqrt;
  fpow := float_pow;
  tpow := float_pow;
  feqb := PrimFloat.eqb;
  fltb := PrimFloat.ltb;
  fis_inf := float_is_inf;
}.

(** ** Data exchanged with the engine (metatensor's atomistic interface) *)

Record Labels : Type := {
  names : list string;
  entries : list (list Z);
}.

(** A neighbors-list request. *)
Record NeighborsListOptions (F : Type) : Type := {
  nl_cutoff : F;
  full_list : bool;
}.
Arguments nl_cutoff {F} _.
Arguments full_list {F} _.

(** One row of the samples of a neighbors list:
    first_atom, second_atom, cell_shift_a, cell_shift_b, cell_shift_c. *)
Record Pair : Type := {
  first_atom : Z;
  second_atom : Z;
  cell_shift : Z * Z * Z;
}.

Definition vec3 (F : Type) : Type := (F * F * F)%type.

(** One row of [system.positions]: the "species" sample and the three
    position values, so that species and positions always have one length. *)
Record Atom (F : Type) : Type := {
  a_species : Z;
  a_position : vec3 F;
}.
Arguments a_species {F} _.
Arguments a_position {F} _.

Record System (F : Type) : Type := {
  atoms : list (Atom F);
  cell : vec3 F * vec3 F * vec3 F;        (* the rows of the 3x3 cell *)
  get_neighbors_list : NeighborsListOptions F → result (list Pair);
}.
Arguments atoms {F} _.
Arguments cell {F} _.
Arguments get_neighbors_list {F} _ _.

Record ModelOutput : Type := {
  quantity : string;
  unit_ : string;
  per_atom : bool;
}.

Record ModelRunOptions : Type := {
  outputs : gmap string ModelOutput;
  selected_atoms : option (list Z);
}.

(** A block holding one scalar, the shape (1, 1) of every block built here. *)
Record TensorBlock (F : Type) : Type := {
  values : F;
  samples : Labels;
  components : list Labels;
  properties : Labels;
}.
Arguments values {F} _.
Arguments samples {F} _.
Arguments components {F} _.
Arguments properties {F} _.

(** The block both [forward] methods return under the key "energy". *)
Definition energy_block {F : Type} (v : F) : TensorBlock F := {|
  values := v;
  samples := {| names := ["_"%string]; entries := [[0]] |};
  components := [];
  properties := {| names := ["energy"%string]; entries := [[0]] |};
|}.

Section Tensors.
Context {F : Type} `{Arith F}.

(** [t[i]] for an integer tensor entry [i]: negative indices count from
    the end, anything else out of range raises. *)
Definition tensor_index {A : Type} (t : list A) (i : Z) : result A :=
  let n := Z.of_nat (length t) in
  let k := if i <? 0 then i + n else i in
  if (0 <=? k) && (k <? n) then
    match t !! Z.to_nat k with
    | Some x => Ok x
    | None => Err IndexError
    end
  else Err IndexError.

Definition positions (system : System F) : list (vec3 F) :=
  a_position <$> atoms system.

Definition species (system : System F) : list Z :=
  a_species <$> atoms system.

Definition vadd (u v : vec3 F) : vec3 F :=
  let '(u0, u1, u2) := u in
  let '(v0, v1, v2) := v in
  (fadd u0 v0, fadd u1 v1, fadd u2 v2).

Definition vsub (u v : vec3 F) : vec3 F :=
  let '(u0, u1, u2) := u in
  let '(v0, v1, v2) := v in
  (fsub u0 v0, fsub u1 v1, fsub u2 v2).

(** [u.dot(v)]: the three products, summed from left to right. *)
Definition dot (u v : vec3 F) : F :=
  let '(u0, u1, u2) := u in
  let '(v0, v1, v2) := v in
  fadd (fadd (fmul u0 v0) (fmul u1 v1)) (fmul u2 v2).

(** [S.to(dtype=cell.dtype) @ cell]: the row vector [S] times the cell,
    each component summed from left to right. *)
Definition shift_matmul (S : Z * Z * Z) (c : vec3 F * vec3 F * vec3 F) : vec3 F :=
  let '(sa, sb, sc) := S in
  let '(ra, rb, rc) := c in
  let col (a b c : F) :=
    fadd (fadd (fmul (of_int sa) a) (fmul (of_int sb) b)) (fmul (of_int sc) c) in
  (col ra.1.1 rb.1.1 rc.1.1, col ra.1.2 rb.1.2 rc.1.2, col ra.2 rb.2 rc.2).

(** [t.reciprocal()] *)
Definition reciprocal (t : F) : F := fdiv (of_int 1) t.

(** [other / t] for a Python float [other] and a tensor [t]: torch's
    [Tensor.__rtruediv__], which returns [t.reciprocal() * other]. *)
Definition rtruediv (t other : F) : F := fmul (reciprocal t) other.

(** [t.reshape(1, 1)]: only a tensor of one element has that shape. *)
Definition reshape_1_1 (t : list F) : result F :=
  match t with
  | [v] => Ok v
  | _ => Err RuntimeError
  end.
End Tensors.

(** ** class LennardJones *)

Module LennardJones.
Section WithArith.
Context {F : Type} `{Arith F}.

(** The value of [parameters[s]]: a dictionary with the keys "sigma" and
    "epsilon". *)
Record Parameters : Type := {
  sigma : F;
  epsilon : F;
}.

(** The list [[sigma, epsilon, energy_at_cutoff]] stored for a pair of
    species. *)
Definition entry : Type := (F * F * F)%type.

Record t : Type := {
  cutoff : F;
  _neighbors : NeighborsListOptions F;
  _lj_params : gmap Z (gmap Z entry);
}.

(** The body of the inner loop of [__init__]. *)
Definition combine (cutoff : F) (p_i p_j : Parameters) : result entry :=
  let sigma_i := sigma p_i in
  let epsilon_i := epsilon p_i in
  let sigma_j := sigma p_j in
  let epsilon_j := epsilon p_j in
  (* combine parameters with Lorentz-Berthelot rules *)
  let sigma := fdiv (fadd sigma_i sigma_j) (of_int 2) in
  epsilon ← py_sqrt (fmul epsilon_i epsilon_j);
  (* the energy at the cutoff for these parameters *)
  let four_epsilon := fmul (of_int 4) epsilon in
  q ← py_div sigma cutoff;
  q12 ← py_pow q 12;
  q' ← py_div sigma cutoff;
  q6 ← py_pow q' 6;
  let energy_at_cutoff := fmul four_epsilon (fsub q12 q6) in
  Ok (sigma, epsilon, energy_at_cutoff).

(** [for s_j, p_j in parameters.items(): self._lj_params[s_i][s_j] = ...] *)
Fixpoint inner_loop (cutoff : F) (p_i : Parameters)
    (items : list (Z * Parameters)) (row : gmap Z entry) : result (gmap Z entry) :=
  match items with
  | [] => Ok row
  | (s_j, p_j) :: rest =>
      e ← combine cutoff p_i p_j;
      inner_loop cutoff p_i rest (<[s_j := e]> row)
  end.

(** [for s_i, p_i in parameters.items(): self._lj_params[s_i] = {}; ...] *)
Fixpoint outer_loop (cutoff : F) (all items : list (Z * Parameters))
    (table : gmap Z (gmap Z entry)) : result (gmap Z (gmap Z entry)) :=
  match items with
  | [] => Ok table
  | (s_i, p_i) :: rest =>
      row ← inner_loop cutoff p_i all ∅;
      outer_loop cutoff all rest (<[s_i := row]> table)
  end.

(** The items of [parameters] are visited in the order of [map_to_list];
    the order decides nothing but which exception comes out when several
    pairs of species raise one. *)
Definition __init__ (cutoff : F) (parameters : gmap Z Parameters) : result t :=
  let items := map_to_list parameters in
  table ← outer_loop cutoff items items ∅;
  Ok {| cutoff := cutoff;
        _neighbors := {| nl_cutoff := cutoff; full_list := false |};
        _lj_params := table |}.

(** [self._lj_params[i][j]], when both keys are there. *)
Definition table_get (table : gmap Z (gmap Z entry)) (i j : Z) : option entry :=
  row ← table !! i; row !! j.

Definition requested_neighbors_lists (self : t) : list (NeighborsListOptions F) :=
  [_neighbors self].

(** [e_ij = 4 * epsilon * ((sigma / r) ** 12 - (sigma / r) ** 6)], where
    [sigma] and [epsilon] are Python floats and [r] is a tensor: [4 *
    epsilon] is a product of Python floats, [sigma / r] the division by a
    tensor, [**] torch's power. *)
Definition e_ij (sigma epsilon r : F) : F :=
  fmul (fmul (of_int 4) epsilon)
       (fsub (tpow (rtruediv r sigma) 12) (tpow (rtruediv r sigma) 6)).

(** What one pair at distance [r] adds to the total: [e_ij - shift]. *)
Definition pair_term (e : entry) (r : F) : F :=
  let '(sigma, epsilon, shift) := e in
  fsub (e_ij sigma epsilon r) shift.

Definition dict_get {V : Type} (d : gmap Z V) (k : Z) : result V :=
  match d !! k with
  | Some v => Ok v
  | None => Err (KeyError (IntKey k))
  end.

(** The distance between the two atoms of a pair. *)
Definition pair_distance (system : System F) (pos_i pos_j : vec3 F)
    (S : Z * Z * Z) : F :=
  let distance := vadd (vsub pos_j pos_i) (shift_matmul S (cell system)) in
  let r2 := dot distance distance in
  fsqrt r2.

(** The body of the loop over pairs of [forward]. *)
Definition pair_energy (self : t) (system : System F) (p : Pair) : result F :=
  let i := first_atom p in
  let j := second_atom p in
  let S := cell_shift p in
  s_i ← tensor_index (species system) i;
  row ← dict_get (_lj_params self) s_i;
  s_j ← tensor_index (species system) j;
  e ← dict_get row s_j;
  pos_j ← tensor_index (positions system) j;
  pos_i ← tensor_index (positions system) i;
  let r := pair_distance system pos_i pos_j S in
  Ok (pair_term e r).

(** [for i, j, S in zip(all_i, all_j, all_S): total_energy += e_ij - shift] *)
Fixpoint pair_loop (self : t) (system : System F) (pairs : list Pair)
    (total_energy : F) : result F :=
  match pairs with
  | [] => Ok total_energy
  | p :: rest =>
      e ← pair_energy self system p;
      pair_loop self system rest (fadd total_energy e)
  end.

Definition forward (self : t) (system : System F)
    (run_options : ModelRunOptions) : result (gmap string (TensorBlock F)) :=
  match outputs run_options !! "energy"%string with
  | None => Ok ∅
  | Some _ =>
      neighbors ← get_neighbors_list system (_neighbors self);
      let selected_atoms :=
        match selected_atoms run_options with
        | None => seqZ 0 (Z.of_nat (length (positions system)))
        | Some l => l
        end in
      let total_energy := of_int 0 in
      total_energy ← pair_loop self system neighbors total_energy;
      Ok {[ "energy"%string := energy_block total_energy ]}
  end.
End WithArith.
Arguments Parameters : clear implicits.
Arguments entry : clear implicits.
Arguments t : clear implicits.
End LennardJones.

(** ** class ExportWrapper *)

Module ExportWrapper.
Section WithModel.
Context {F : Type} `{Arith F}.

(** The learned model is a collaborator: [NN] is the state of the module
    object, [nn_forward] its call, which returns the tensor of energies
    (flattened) or raises, and the state it leaves behind. *)
Context {RascalineSystem NN : Type}.
Variable metatensor_system_to_rascaline : System F → RascalineSystem.
Variable nn_forward : NN → RascalineSystem → option Labels → result (list F) * NN.

Record t : Type := {
  lj : LennardJones.t F;
  nn_model : NN;
}.

Definition __init__ (lj : LennardJones.t F) (nn_model : NN) : t :=
  {| lj := lj; nn_model := nn_model |}.

(** [Labels("center", torch.IntTensor(selected_atoms).reshape(-1, 1))] *)
Definition center_labels (selected_atoms : list Z) : Labels :=
  {| names := ["center"%string]; entries := (λ a, [a]) <$> selected_atoms |}.

(** [forward] returns its result and the wrapper after the call. *)
Definition forward (self : t) (system : System F)
    (run_options : ModelRunOptions)
    : result (gmap string (TensorBlock F)) * t :=
  match outputs run_options !! "energy"%string with
  | None => (Ok ∅, self)
  | Some _ =>
      (* run the LJ model *)
      match LennardJones.forward (lj self) system run_options with
      | Err e => (Err e, self)
      | Ok outputs =>
          match outputs !! "energy"%string with
          | None => (Err (KeyError (StrKey "energy")), self)
          | Some lj_energy =>
              (* run the NN model *)
              let selected_samples :=
                match selected_atoms run_options with
                | None => None
                | Some l => Some (center_labels l)
                end in
              let '(r, nn') :=
                nn_forward (nn_model self)
                  (metatensor_system_to_rascaline system) selected_samples in
              let self' := {| lj := lj self; nn_model := nn' |} in
              match r with
              | Err e => (Err e, self')
              | Ok nn_energy =>
                  match reshape_1_1 nn_energy with
                  | Err e => (Err e, self')
                  | Ok v =>
                      (Ok {[ "energy"%string :=
                               energy_block (fadd (values lj_energy) v) ]},
                       self')
                  end
              end
          end
      end
  end.
End WithModel.
End ExportWrapper.

(** ** class SOAPModel

    The learned model of the notebooks.  rascaline's calculator and torch's
    network are collaborators: [Calculator], [TensorMap] and [Net] are their
    objects, and their operations are the variables below, which return
    their value or raise. *)

Module SOAPModel.
Section WithArith.
Context {F : Type} `{Arith F}.
Context {RSystem Calculator TensorMap Net Hyper : Type}.

(** The dictionary [soap_parameters]: the two keys the class reads, and the
    other hyper-parameters, which only the calculator reads. *)
Record SoapParameters : Type := {
  max_radial : Z;
  max_angular : Z;
  other_parameters : Hyper;
}.

(** [SoapPowerSpectrum], called with the entries of [soap_parameters] *)
Variable SoapPowerSpectrum : SoapParameters → result Calculator.
(** [torch.nn.Sequential(torch.nn.Linear(in_features=n_soap, ...), ...)] *)
Variable Sequential : Z → result Net.
(** [self.soap_calculator([system], selected_samples=selected_samples)] *)
Variable compute : Calculator → RSystem → option Labels → result TensorMap.
(** [soap.keys_to_properties(Labels([...], self.species_pairs))] *)
Variable keys_to_properties : TensorMap → list (Z * Z) → result TensorMap.
(** [soap.keys_to_samples("species_center")] *)
Variable keys_to_samples : TensorMap → string → result TensorMap.
(** [soap.block().values]: one row of features per atom *)
Variable block_values : TensorMap → result (list (list F)).
(** [self.soap_nn(values)]: the energies per atom *)
Variable apply_nn : Net → list (list F) → result (list F).

Record t : Type := {
  energy_offset : F;
  species : list Z;
  soap_calculator : Calculator;
  species_pairs : list (Z * Z);
  soap_nn : Net;
}.

(** [[(i, j) for i in species for j in species if i <= j]] *)
Definition ordered_pairs (species : list Z) : list (Z * Z) :=
  i ← species; j ← species; if bool_decide (i ≤ j) then [(i, j)] else [].

(** Number of features produced by the SOAP calculator. *)
Definition n_soap (soap_parameters : SoapParameters) (species_pairs : list (Z * Z)) : Z :=
  (max_angular soap_parameters + 1)
  * max_radial soap_parameters ^ 2
  * Z.of_nat (length species_pairs).

Definition __init__ (soap_parameters : SoapParameters) (species : list Z)
    (energy_offset : F) : result t :=
  soap_calculator ← SoapPowerSpectrum soap_parameters;
  let species_pairs := ordered_pairs species in
  let n_soap := n_soap soap_parameters species_pairs in
  soap_nn ← Sequential n_soap;
  Ok {| energy_offset := energy_offset;
        species := species;
        soap_calculator := soap_calculator;
        species_pairs := species_pairs;
        soap_nn := soap_nn |}.

(** [t.sum()], from left to right. *)
Definition tensor_sum (t : list F) : F := foldl fadd (of_int 0) t.

(** The body of the loop of [forward]: the value written to [energies[i]]. *)
Definition system_energy (self : t) (selected_samples : option Labels)
    (system : RSystem) : result F :=
  soap ← compute (soap_calculator self) system selected_samples;
  soap ← keys_to_properties soap (species_pairs self);
  soap ← keys_to_samples soap "species_center";
  values ← block_values soap;
  energies_per_atom ← apply_nn (soap_nn self) values;
  Ok (tensor_sum energies_per_atom).

(** [for i, system in enumerate(systems): ...; energies[i] = ...] *)
Fixpoint forward_loop (self : t) (selected_samples : option Labels) (i : nat)
    (systems : list RSystem) (energies : list F) : result (list F) :=
  match systems with
  | [] => Ok energies
  | system :: rest =>
      e ← system_energy self selected_samples system;
      forward_loop self selected_samples (S i) rest (<[i := e]> energies)
  end.

(** [forward] as the first notebook has it: it returns [energies]. *)
Definition forward_1 (self : t) (systems : list RSystem)
    (selected_samples : option Labels) : result (list F) :=
  let energies := replicate (length systems) (of_int 0) in
  forward_loop self selected_samples 0 systems energies.

(** [forward] as the third notebook has it: it returns
    [energies + self.energy_offset]. *)
Definition forward (self : t) (systems : list RSystem)
    (selected_samples : option Labels) : result (list F) :=
  let energies := replicate (length systems) (of_int 0) in
  match forward_loop self selected_samples 0 systems energies with
  | Ok energies => Ok ((λ e, fadd e (energy_offset self)) <$> energies)
  | Err e => Err e
  end.
End WithArith.
Arguments SoapParameters : clear implicits.
Arguments t : clear implicits.
End SOAPModel.

(** ** class ExportWrapper of the first notebook

    It wraps the learned model alone. *)

Module ExportWrapper1.
Section WithModel.
Context {F : Type} `{Arith F}.
Context {RascalineSystem NN : Type}.
Variable metatensor_system_to_rascaline : System F → RascalineSystem.
Variable nn_forward : NN → RascalineSystem → option Labels → result (list F) * NN.

Record t : Type := {
  model : NN;
}.

Definition __init__ (model : NN) : t := {| model := model |}.

Definition forward (self : t) (system : System F)
    (run_options : ModelRunOptions)
    : result (gmap string (TensorBlock F)) * t :=
  (* check if the energy was even required *)
  match outputs run_options !! "energy"%string with
  | None => (Ok ∅, self)
  | Some _ =>
      let selected_samples :=
        match selected_atoms run_options with
        | None => None
        | Some l => Some (ExportWrapper.center_labels l)
        end in
      (* run the model *)
      let '(r, nn') :=
        nn_forward (model self)
          (metatensor_system_to_rascaline system) selected_samples in
      let self' := {| model := nn' |} in
      match r with
      | Err e => (Err e, self')
      | Ok energy =>
          match reshape_1_1 energy with
          | Err e => (Err e, self')
          | Ok v => (Ok {[ "energy"%string := energy_block v ]}, self')
          end
      end
  end.
End WithModel.
End ExportWrapper1.

(** ** The training cell

    [start = epoch + 1; for epoch in range(start, start + n): ...], with
    n = 15 in the first notebook and 75 in the third; [epoch] is -1 before
    the first run.  The body of the loop (gradients, prediction, loss,
    optimizer step) is a collaborator acting on a state. *)

Module Training.
Section WithBody.
Context {St : Type}.
Variable epoch_body : Z → St → St.

(** [for epoch in range(start, stop): body], on the state and the variable
    [epoch], which keeps its value when the range is empty. *)
Definition for_range (start stop : Z) (s : St * Z) : St * Z :=
  foldl (λ s epoch, (epoch_body epoch s.1, epoch)) s (seqZ start (stop - start)).

Definition training_cell (n : Z) (s : St * Z) : St * Z :=
  let start := s.2 + 1 in
  for_range start (start + n) s.

(** The cell run [k] times in a row. *)
Definition run_cells (n : Z) (k : nat) (s : St * Z) : St * Z :=
  Nat.iter k (training_cell n) s.
End WithBody.
End Training.

(** ** The specification's formulas (sections 4.2 and 4.4)

    Written from the specification's words, to be compared with the code:
    nothing here is shared with the classes above but the arithmetic and
    the data.  The specification has one arithmetic: its quotient is [fdiv]
    and its power [fpow]. *)

Module Spec.
Section WithArith.
Context {F : Type} `{Arith F}.

(** Lorentz-Berthelot rules. *)
Definition sigma_ij (sigma_i sigma_j : F) : F :=
  fdiv (fadd sigma_i sigma_j) (of_int 2).

Definition epsilon_ij (epsilon_i epsilon_j : F) : F :=
  fsqrt (fmul epsilon_i epsilon_j).

(** 4*epsilon*((sigma/r)^12 - (sigma/r)^6) *)
Definition lj (sigma epsilon r : F) : F :=
  fmul (fmul (of_int 4) epsilon)
       (fsub (fpow (fdiv sigma r) 12) (fpow (fdiv sigma r) 6)).

(** shift_ij, the raw term at the cutoff r_c. *)
Definition shift_ij (sigma epsilon r_c : F) : F := lj sigma epsilon r_c.

Definition scale (n : Z) (v : vec3 F) : vec3 F :=
  let '(x, y, z) := v in
  (fmul (of_int n) x, fmul (of_int n) y, fmul (of_int n) z).

Definition plus (u v : vec3 F) : vec3 F :=
  (fadd u.1.1 v.1.1, fadd u.1.2 v.1.2, fadd u.2 v.2).

(** [minus u v] is u - v. *)
Definition minus (u v : vec3 F) : vec3 F :=
  (fsub u.1.1 v.1.1, fsub u.1.2 v.1.2, fsub u.2 v.2).

(** cell_shift . cell: integer multiples of the three lattice vectors. *)
Definition shift_vector (S : Z * Z * Z) (c : vec3 F * vec3 F * vec3 F) : vec3 F :=
  let '(n_a, n_b, n_c) := S in
  let '(a, b, c) := c in
  plus (plus (scale n_a a) (scale n_b b)) (scale n_c c).

(** position[j] - position[i] + cell_shift . cell *)
Definition displacement (pos_i pos_j : vec3 F) (S : Z * Z * Z)
    (c : vec3 F * vec3 F * vec3 F) : vec3 F :=
  plus (minus pos_j pos_i) (shift_vector S c).

(** The Euclidean norm. *)
Definition norm (d : vec3 F) : F :=
  let '(x, y, z) := d in
  fsqrt (fadd (fadd (fmul x x) (fmul y y)) (fmul z z)).

(** 4*epsilon_ij*((sigma_ij/r)^12 - (sigma_ij/r)^6) - shift_ij *)
Definition shifted_term (r_c : F) (p_i p_j : LennardJones.Parameters F) (r : F) : F :=
  let s := sigma_ij (LennardJones.sigma p_i) (LennardJones.sigma p_j) in
  let e := epsilon_ij (LennardJones.epsilon p_i) (LennardJones.epsilon p_j) in
  fsub (lj s e r) (shift_ij s e r_c).

(** sigma_ij and the distance r of the pair (i, j, cell_shift) of a
    system, for species with parameters; the atoms are positions[i] and
    positions[j], counted from 0. *)
Definition pair_sigma_r (parameters : gmap Z (LennardJones.Parameters F))
    (system : System F) (p : Pair) : option (F * F) :=
  guard (0 ≤ first_atom p);;
  guard (0 ≤ second_atom p);;
  a_i ← atoms system !! Z.to_nat (first_atom p);
  a_j ← atoms system !! Z.to_nat (second_atom p);
  p_i ← parameters !! a_species a_i;
  p_j ← parameters !! a_species a_j;
  let d := displacement (a_position a_i) (a_position a_j) (cell_shift p)
             (cell system) in
  Some (sigma_ij (LennardJones.sigma p_i) (LennardJones.sigma p_j), norm d).

(** The term of that pair. *)
Definition pair_contribution (r_c : F) (parameters : gmap Z (LennardJones.Parameters F))
    (system : System F) (p : Pair) : option F :=
  guard (0 ≤ first_atom p);;
  guard (0 ≤ second_atom p);;
  a_i ← atoms system !! Z.to_nat (first_atom p);
  a_j ← atoms system !! Z.to_nat (second_atom p);
  p_i ← parameters !! a_species a_i;
  p_j ← parameters !! a_species a_j;
  let d := displacement (a_position a_i) (a_position a_j) (cell_shift p)
             (cell system) in
  Some (shifted_term r_c p_i p_j (norm d)).

(** E += term, over the pairs in the order given, from E = 0. *)
Fixpoint accumulate (r_c : F) (parameters : gmap Z (LennardJones.Parameters F))
    (system : System F) (pairs : list Pair) (E : F) : option F :=
  match pairs with
  | [] => Some E
  | p :: rest =>
      e ← pair_contribution r_c parameters system p;
      accumulate r_c parameters system rest (fadd E e)
  end.

Definition energy (r_c : F) (parameters : gmap Z (LennardJones.Parameters F))
    (system : System F) (pairs : list Pair) : option F :=
  accumulate r_c parameters system pairs (of_int 0).
End WithArith.

(** The selection the learned model is given, [predict(system,
    selected_atoms)]: the atoms of [selected_atoms], in their order, one
    row for each under the name "center"; no selection when there is none,
    which stands for all atoms. *)
Definition selection (selected_atoms : option (list Z)) : option Labels :=
  match selected_atoms with
  | None => None
  | Some atoms => Some {| names := ["center"%string];
                          entries := map (λ a, [a]) atoms |}
  end.
End Spec.

(** ** Concrete models and systems, in binary64 *)

Module Examples.
Import LennardJones.

Definition P (s e : float) : Parameters float := {| sigma := s; epsilon := e |}.

(** Two species with exactly representable parameters. *)
Definition parameters : gmap Z (Parameters float) := {[ 1 := P 1 0.25; 6 := P 2 1 ]}.

(** One species whose combined epsilon overflows: 2^600 * 2^600. *)
Definition huge_parameters : gmap Z (Parameters float) := {[ 1 := P 2 0x1p+600 ]}.

Definition run_energy : ModelRunOptions :=
  {| outputs := {[ "energy"%string :=
                     {| quantity := "energy"; unit_ := "eV"; per_atom := false |} ]};
     selected_atoms := None |}.

Definition run_energy_selected : ModelRunOptions :=
  {| outputs := outputs run_energy; selected_atoms := Some [0] |}.

Definition run_nothing : ModelRunOptions :=
  {| outputs := ∅; selected_atoms := None |}.

Definition zero_cell : vec3 float * vec3 float * vec3 float :=
  ((0, 0, 0), (0, 0, 0), (0, 0, 0))%float.

Definition cubic_cell : vec3 float * vec3 float * vec3 float :=
  ((4, 0, 0), (0, 4, 0), (0, 0, 4))%float.

Definition at_ (s : Z) (x y z : float) : Atom float :=
  {| a_species := s; a_position := (x, y, z) |}.

Definition mk_system (ats : list (Atom float))
    (c : vec3 float * vec3 float * vec3 float) (pairs : list Pair) : System float :=
  {| atoms := ats; cell := c; get_neighbors_list := λ _, Ok pairs |}.

Definition pr (i j : Z) (S : Z * Z * Z) : Pair :=
  {| first_atom := i; second_atom := j; cell_shift := S |}.

(** The notebook's use of the class: build the model, then call it. *)
Definition evaluate (cutoff : float) (ps : gmap Z (Parameters float))
    (system : System float) (run_options : ModelRunOptions)
    : result (gmap string (TensorBlock float)) :=
  lj ← __init__ cutoff ps; forward lj system run_options.

(** Two atoms one unit apart, and the periodic image of the first. *)
Definition dimer : System float :=
  mk_system [at_ 1 0 0 0; at_ 6 1 0 0] cubic_cell
    [pr 0 1 (0, 0, 0); pr 0 0 (1, 0, 0)].

(** Two atoms at the same place, listed as neighbors. *)
Definition overlapping : System float :=
  mk_system [at_ 1 0.5 0.5 0.5; at_ 1 0.5 0.5 0.5] zero_cell [pr 0 1 (0, 0, 0)].

(** One atom of a species without parameters, and no pair. *)
Definition lone_stranger : System float :=
  mk_system [at_ 9 0 0 0] zero_cell [].

(** A stranger as second pair of the neighbors list. *)
Definition stranger_second : System float :=
  mk_system [at_ 1 0 0 0; at_ 6 1 0 0; at_ 9 0 1 0] zero_cell
    [pr 0 1 (0, 0, 0); pr 1 2 (0, 0, 0)].

(** Learned models: the state counts the calls. *)
Definition nn_constant (v : float) (calls : nat) (_ : System float)
    (_ : option Labels) : result (list float) * nat :=
  (Ok [v], S calls).

Definition nn_raises (calls : nat) (_ : System float)
    (_ : option Labels) : result (list float) * nat :=
  (Err (Raised "OutOfMemoryError"), S calls).

Definition nn_two_values (calls : nat) (_ : System float)
    (_ : option Labels) : result (list float) * nat :=
  (Ok [1; 2]%float, S calls).

(** A learned model whose energy is the sum of the species numbers of the
    atoms it is asked for, of all atoms when there is no selection. *)
Definition nn_species_sum (calls : nat) (system : System float)
    (sel : option Labels) : result (list float) * nat :=
  let chosen :=
    match sel with
    | None => atoms system
    | Some l =>
        omap (λ row, match row with
                     | [a] => atoms system !! Z.to_nat a
                     | _ => None
                     end) (entries l)
    end in
  (Ok [foldl (λ acc a, PrimFloat.add acc (float_of_Z (a_species a))) 0%float chosen],
   S calls).

Definition run_energy_second : ModelRunOptions :=
  {| outputs := outputs run_energy; selected_atoms := Some [1] |}.

(** One species with sigma = 49, for the cutoff 49, and two atoms 49 apart. *)
Definition parameters_49 : gmap Z (Parameters float) := {[ 1 := P 49 1 ]}.

Definition far_apart : System float :=
  mk_system [at_ 1 0 0 0; at_ 1 49 0 0] zero_cell [pr 0 1 (0, 0, 0)].

(** Two atoms in a cell that is not symmetric, with three pairs: through
    the first lattice vector, through the second, and inside the cell from
    the second atom to the first. *)
Definition skewed_cell : vec3 float * vec3 float * vec3 float :=
  ((3, 0, 0), (1, 4, 0), (0, 0, 5))%float.

Definition skewed : System float :=
  mk_system [at_ 1 3 0 0; at_ 6 2 0 0] skewed_cell
    [pr 0 1 (1, 0, 0); pr 0 1 (0, 1, 0); pr 1 0 (0, 0, 0)].

(** A stranger next to two atoms with parameters, and in no pair. *)
Definition stranger_aside : System float :=
  mk_system [at_ 1 0 0 0; at_ 6 1 0 0; at_ 9 0 1 0] zero_cell [pr 0 1 (0, 0, 0)].

(** A learned model that keeps nothing between calls, and answers by the
    size of the selection. *)
Definition nn_stateless (_ : unit) (_ : System float)
    (sel : option Labels) : result (list float) * unit :=
  (Ok [match sel with
       | None => 8%float
       | Some l => float_of_Z (Z.of_nat (length (entries l)))
       end], tt).
End Examples.

(** ** More concrete inputs, in binary64 *)

Module MoreExamples.
Import LennardJones Examples.

(** Epsilons of opposite signs. *)
Definition mixed_sign_parameters : gmap Z (Parameters float) :=
  {[ 1 := P 1 (-1); 6 := P 1 1 ]}.

(** The energy and the forces requested. *)
Definition run_energy_and_forces : ModelRunOptions :=
  {| outputs :=
       {[ "energy"%string :=
            {| quantity := "energy"; unit_ := "eV"; per_atom := false |};
          "forces"%string :=
            {| quantity := "force"; unit_ := "eV/A"; per_atom := true |} ]};
     selected_atoms := None |}.

(** The second pair names an atom 5 of a system of two atoms. *)
Definition stray_index : System float :=
  mk_system [at_ 1 0 0 0; at_ 6 1 0 0] zero_cell
    [pr 0 1 (0, 0, 0); pr 0 5 (0, 0, 0)].

(** A toy SOAP pipeline: the features of an atom are its coordinates, the
    network (which remembers its input size) adds them up. *)
Definition toy_parameters : SOAPModel.SoapParameters unit :=
  {| SOAPModel.max_radial := 6; SOAPModel.max_angular := 6;
     SOAPModel.other_parameters := () |}.

Definition toy_SoapPowerSpectrum (_ : SOAPModel.SoapParameters unit) : result unit :=
  Ok ().

Definition toy_Sequential (n : Z) : result Z := Ok n.

Definition toy_compute (_ : unit) (system : System float) (_ : option Labels)
    : result (list (list float)) :=
  match atoms system with
  | [] => Err (Raised "RascalError")
  | ats => Ok ((λ a, let '(x, y, z) := a_position a in [x; y; z]) <$> ats)
  end.

Definition toy_keys_to_properties (m : list (list float)) (_ : list (Z * Z))
    : result (list (list float)) := Ok m.

Definition toy_keys_to_samples (m : list (list float)) (_ : string)
    : result (list (list float)) := Ok m.

Definition toy_block_values (m : list (list float)) : result (list (list float)) :=
  Ok m.

Definition toy_apply_nn (_ : Z) (values : list (list float)) : result (list float) :=
  Ok (foldl PrimFloat.add 0%float <$> values).

(** The toy model for the species 1, 6, 8, with the offset 0.5. *)
Definition toy_model : SOAPModel.t float unit Z :=
  {| SOAPModel.energy_offset := 0.5%float;
     SOAPModel.species := [1; 6; 8];
     SOAPModel.soap_calculator := ();
     SOAPModel.species_pairs := SOAPModel.ordered_pairs [1; 6; 8];
     SOAPModel.soap_nn := 1512 |}.

(** Three atoms, for which the toy network gives the energies 1, 2, 4, and
    a system without atoms, for which the toy calculator raises. *)
Definition trimer : System float :=
  mk_system [at_ 1 1 0 0; at_ 6 2 0 0; at_ 1 4 0 0] zero_cell [pr 0 1 (0, 0, 0)].

Definition no_atoms : System float := mk_system [] zero_cell [].

(** A training step that records the epochs it is run for. *)
Definition record_epoch (epoch : Z) (log : list Z) : list Z := log ++ [epoch].
End MoreExamples.

(** ** Auxiliary definitions

    A loop that fills a dictionary: both loops of [LennardJones.__init__]
    are instances of it. *)

Fixpoint fill {V W : Type} (f : V → result W) (items : list (Z * V))
    (acc : gmap Z W) : result (gmap Z W) :=
  match items with
  | [] => Ok acc
  | (k, v) :: rest => w ← f v; fill f rest (<[k := w]> acc)
  end.

(** [v] is what the loop body adds for the pair [p]: the two atoms exist,
    the table has an entry for their species, and [v] is [e_ij - shift] at
    the distance of the pair. *)
Definition pair_has_term {F : Type} `{Arith F} (self : LennardJones.t F)
    (system : System F) (p : Pair) (v : F) : Prop :=
  ∃ a_i a_j e,
    tensor_index (atoms system) (first_atom p) = Ok a_i
    ∧ tensor_index (atoms system) (second_atom p) = Ok a_j
    ∧ LennardJones.table_get (LennardJones._lj_params self)
        (a_species a_i) (a_species a_j) = Some e
    ∧ v = LennardJones.pair_term e
          (LennardJones.pair_distance system (a_position a_i)
             (a_position a_j) (cell_shift p)).

(** The pair loop and the specification round alike at the quotient
    sigma / r when torch's division by the tensor [r] and torch's power
    return there what the plain division and the plain power return. *)
Definition rounds_alike {F : Type} `{Arith F} (sigma r : F) : Prop :=
  rtruediv r sigma = fdiv sigma r
  ∧ tpow (fdiv sigma r) 12 = fpow (fdiv sigma r) 12
  ∧ tpow (fdiv sigma r) 6 = fpow (fdiv sigma r) 6.

(** They round alike at the quotient of a pair of the neighbors list. *)
Definition pair_rounds_alike {F : Type} `{Arith F}
    (parameters : gmap Z (LennardJones.Parameters F)) (system : System F)
    (p : Pair) : Prop :=
  ∀ sigma r, Spec.pair_sigma_r parameters system p = Some (sigma, r) →
             rounds_alike sigma r.

(** The atoms a pair names exist, and their species have parameters. *)
Definition pair_is_supported {F : Type}
    (parameters : gmap Z (LennardJones.Parameters F)) (system : System F)
    (p : Pair) : Prop :=
  ∃ a_i a_j,
    tensor_index (atoms system) (first_atom p) = Ok a_i
    ∧ tensor_index (atoms system) (second_atom p) = Ok a_j
    ∧ is_Some (parameters !! a_species a_i)
    ∧ is_Some (parameters !! a_species a_j).

(** A function that may raise, over a list: the values in order, or the
    exception of the first element that raises. *)
Fixpoint map_result {A B : Type} (f : A → result B) (l : list A) : result (list B) :=
  match l with
  | [] => Ok []
  | x :: rest =>
      match f x with
      | Err e => Err e
      | Ok y =>
          match map_result f rest with
          | Err e => Err e
          | Ok ys => Ok (y :: ys)
          end
      end
  end.

(** The calls of the loop body of [SOAPModel.forward] all return for a
    system, and the network gives the energies per atom [es]. *)
Definition soap_gives {F : Type} {RSystem Calculator TensorMap Net : Type}
    (compute : Calculator → RSystem → option Labels → result TensorMap)
    (keys_to_properties : TensorMap → list (Z * Z) → result TensorMap)
    (keys_to_samples : TensorMap → string → result TensorMap)
    (block_values : TensorMap → result (list (list F)))
    (apply_nn : Net → list (list F) → result (list F))
    (self : SOAPModel.t F Calculator Net) (selected_samples : option Labels)
    (system : RSystem) (es : list F) : Prop :=
  ∃ soap soap' soap'' values,
    compute (SOAPModel.soap_calculator self) system selected_samples = Ok soap
    ∧ keys_to_properties soap (SOAPModel.species_pairs self) = Ok soap'
    ∧ keys_to_samples soap' "species_center" = Ok soap''
    ∧ block_values soap'' = Ok values
    ∧ apply_nn (SOAPModel.soap_nn self) values = Ok es.

(** One of these calls raises [e], the calls before it having returned. *)
Definition soap_raises {F : Type} {RSystem Calculator TensorMap Net : Type}
    (compute : Calculator → RSystem → option Labels → result TensorMap)
    (keys_to_properties : TensorMap → list (Z * Z) → result TensorMap)
    (keys_to_samples : TensorMap → string → result TensorMap)
    (block_values : TensorMap → result (list (list F)))
    (apply_nn : Net → list (list F) → result (list F))
    (self : SOAPModel.t F Calculator Net) (selected_samples : option Labels)
    (system : RSystem) (e : exn) : Prop :=
  compute (SOAPModel.soap_calculator self) system selected_samples = Err e
  ∨ ∃ soap,
      compute (SOAPModel.soap_calculator self) system selected_samples = Ok soap
      ∧ (keys_to_properties soap (SOAPModel.species_pairs self) = Err e
         ∨ ∃ soap',
             keys_to_properties soap (SOAPModel.species_pairs self) = Ok soap'
             ∧ (keys_to_samples soap' "species_center" = Err e
                ∨ ∃ soap'',
                    keys_to_samples soap' "species_center" = Ok soap''
                    ∧ (block_values soap'' = Err e
                       ∨ ∃ values,
                           block_values soap'' = Ok values
                           ∧ apply_nn (SOAPModel.soap_nn self) values = Err e))).

(** The SOAP model as the learned model of a wrapper.  [forward] assigns
    no attribute of the model: the object after the call is taken to be the
    object before it. *)
Definition soap_as_learned_model {F : Type} `{Arith F}
    {RSystem Calculator TensorMap Net : Type}
    (compute : Calculator → RSystem → option Labels → result TensorMap)
    (keys_to_properties : TensorMap → list (Z * Z) → result TensorMap)
    (keys_to_samples : TensorMap → string → result TensorMap)
    (block_values : TensorMap → result (list (list F)))
    (apply_nn : Net → list (list F) → result (list F))
    (nn : SOAPModel.t F Calculator Net) (systems : list RSystem)
    (selected_samples : option Labels)
    : result (list F) * SOAPModel.t F Calculator Net :=
  (SOAPModel.forward compute keys_to_properties keys_to_samples block_values
     apply_nn nn systems selected_samples, nn).

(** The pairs (i, j) with i in [a], j in [b] and i <= j, to count the
    pairs of species of the SOAP model. *)
Definition pairs_between (a b : list Z) : list (Z * Z) :=
  i ← a; j ← b; if bool_decide (i ≤ j) then [(i, j)] else [].

(** * Properties *)

(** ** The error monad *)

Lemma bind_Ok {A B : Type} (m : result A) (k : A → result B) (b : B) :
  m ≫= k = Ok b ↔ ∃ a, m = Ok a ∧ k a = Ok b.
Proof.
  destruct m as [a|e]; simpl.
  - split; [by exists a | by intros (? & [= ->] & ?)].
  - split; [done | by intros (? & ? & _)].
Qed.

Lemma bind_Ok_l {A B : Type} (a : A) (k : A → result B) : Ok a ≫= k = k a.
Proof. reflexivity. Qed.

Lemma bind_Err_l {A B : Type} (m : result A) (k : A → result B) (e : exn) :
  m = Err e → m ≫= k = Err e.
Proof. by intros ->. Qed.

Lemma is_ok_true {A : Type} (m : result A) : is_ok m = true ↔ ∃ a, m = Ok a.
Proof.
  destruct m as [a|e]; simpl.
  - split; [by exists a | done].
  - split; [done | by intros [? ?]].
Qed.

(** ** Tensor indexing *)

Lemma tensor_index_nonneg {A : Type} (t : list A) (i : Z) (x : A) :
  0 ≤ i → t !! Z.to_nat i = Some x → tensor_index t i = Ok x.
Proof.
  intros Hi Hx. unfold tensor_index.
  assert (Hlt : (Z.to_nat i < length t)%nat) by by eapply lookup_lt_Some.
  destruct (Z.ltb_spec i 0) as [?|_]; [lia|].
  destruct (Z.leb_spec 0 i) as [_|?]; [|lia].
  destruct (Z.ltb_spec i (Z.of_nat (length t))) as [_|?]; [|lia].
  simpl. by rewrite Hx.
Qed.

Lemma tensor_index_fmap {A B : Type} (f : A → B) (t : list A) (i : Z) (x : A) :
  tensor_index t i = Ok x → tensor_index (f <$> t) i = Ok (f x).
Proof.
  unfold tensor_index. rewrite length_fmap, list_lookup_fmap.
  destruct (_ && _); [|done].
  destruct (t !! _); [|done]. by intros [= ->].
Qed.

(** ** The table built by [LennardJones.__init__] *)

Section Table.
Context {F : Type} `{Arith F}.
Import LennardJones.

Lemma inner_loop_fill cutoff p_i items row :
  inner_loop cutoff p_i items row = fill (combine cutoff p_i) items row.
Proof.
  revert row. induction items as [|[s_j p_j] rest IH]; intros row; simpl; [done|].
  destruct (combine cutoff p_i p_j); simpl; [apply IH | done].
Qed.

Lemma outer_loop_fill cutoff all items table :
  outer_loop cutoff all items table
  = fill (λ p_i, inner_loop cutoff p_i all ∅) items table.
Proof.
  revert table. induction items as [|[s_i p_i] rest IH]; intros table; simpl; [done|].
  destruct (inner_loop cutoff p_i all ∅); simpl; [apply IH | done].
Qed.

Lemma fill_Ok {V W : Type} (f : V → result W) items acc m :
  NoDup items.*1 →
  fill f items acc = Ok m →
  (∀ k v, (k, v) ∈ items → ∃ w, f v = Ok w ∧ m !! k = Some w)
  ∧ (∀ k, k ∉ items.*1 → m !! k = acc !! k).
Proof.
  revert acc. induction items as [|[k0 v0] rest IH]; intros acc Hnd Hfill.
  - simpl in Hfill. injection Hfill as <-. split; [|done].
    intros k v Hin. by apply elem_of_nil in Hin.
  - simpl in Hfill. apply bind_Ok in Hfill as (w0 & Hf & Hrest).
    apply NoDup_cons in Hnd as [Hk0 Hnd].
    destruct (IH _ Hnd Hrest) as [IHin IHout]. split.
    + intros k v [Heq|Hin]%elem_of_cons.
      * injection Heq as -> ->. exists w0. split; [done|].
        rewrite (IHout k0 Hk0). apply lookup_insert_eq.
      * by apply IHin.
    + intros k Hk. simpl in Hk. apply not_elem_of_cons in Hk as [Hne Hk].
      rewrite (IHout k Hk). by apply lookup_insert_ne.
Qed.

(** A dictionary filled from the items of [d] has the keys of [d]. *)
Lemma fill_map_to_list {V W : Type} (f : V → result W) (d : gmap Z V) m k :
  fill f (map_to_list d) ∅ = Ok m →
  match d !! k with
  | Some v => ∃ w, f v = Ok w ∧ m !! k = Some w
  | None => m !! k = None
  end.
Proof.
  intros Hfill.
  destruct (fill_Ok f _ _ _ (NoDup_fst_map_to_list d) Hfill) as [Hin Hout].
  destruct (d !! k) as [v|] eqn:Hk.
  - apply Hin. by apply elem_of_map_to_list.
  - rewrite (Hout k); [apply lookup_empty|].
    intros ([k' v'] & -> & Hin')%list_elem_of_fmap.
    apply elem_of_map_to_list in Hin'. simpl in Hk. congruence.
Qed.

(** What [__init__] stores: a row for each species of [parameters], and for
    no other; in the row of [i], for each species [j] of [parameters], and
    for no other, the combination of their parameters. *)
Lemma init_rows cutoff parameters self i :
  __init__ cutoff parameters = Ok self →
  match parameters !! i with
  | Some p_i =>
      ∃ row, _lj_params self !! i = Some row
             ∧ ∀ j, match parameters !! j with
                    | Some p_j => ∃ e, combine cutoff p_i p_j = Ok e
                                       ∧ row !! j = Some e
                    | None => row !! j = None
                    end
  | None => _lj_params self !! i = None
  end.
Proof.
  unfold __init__. intros (table & Hout & [= <-])%bind_Ok. simpl.
  rewrite outer_loop_fill in Hout.
  pose proof (fill_map_to_list _ _ _ i Hout) as Hi.
  destruct (parameters !! i) as [p_i|]; [|done].
  destruct Hi as (row & Hrow & Hi). exists row. split; [done|]. intros j.
  rewrite inner_loop_fill in Hrow.
  apply (fill_map_to_list _ _ _ j Hrow).
Qed.

Lemma init_table cutoff parameters self i j :
  __init__ cutoff parameters = Ok self →
  match parameters !! i, parameters !! j with
  | Some p_i, Some p_j =>
      ∃ e, combine cutoff p_i p_j = Ok e
           ∧ table_get (_lj_params self) i j = Some e
  | _, _ => table_get (_lj_params self) i j = None
  end.
Proof.
  intros Hinit. pose proof (init_rows _ _ _ i Hinit) as Hi. unfold table_get.
  destruct (parameters !! i) as [p_i|]; [|by rewrite Hi].
  destruct Hi as (row & -> & Hrow). specialize (Hrow j). simpl.
  by destruct (parameters !! j) as [p_j|].
Qed.

Lemma init_table_inv cutoff parameters self i j e :
  __init__ cutoff parameters = Ok self →
  table_get (_lj_params self) i j = Some e →
  ∃ p_i p_j, parameters !! i = Some p_i ∧ parameters !! j = Some p_j
             ∧ combine cutoff p_i p_j = Ok e.
Proof.
  intros Hinit Hget. pose proof (init_table _ _ _ i j Hinit) as Ht.
  destruct (parameters !! i) as [p_i|], (parameters !! j) as [p_j|];
    try congruence.
  destruct Ht as (e' & Hc & Hget'). exists p_i, p_j.
  rewrite Hget in Hget'. by injection Hget' as ->.
Qed.

(** The three components of a stored entry. *)
Lemma combine_Ok cutoff p_i p_j e :
  combine cutoff p_i p_j = Ok e →
  e = (Spec.sigma_ij (sigma p_i) (sigma p_j),
       Spec.epsilon_ij (epsilon p_i) (epsilon p_j),
       Spec.shift_ij (Spec.sigma_ij (sigma p_i) (sigma p_j))
                     (Spec.epsilon_ij (epsilon p_i) (epsilon p_j)) cutoff).
Proof.
  unfold combine.
  intros (eps & Heps & (q & Hq & (q12 & Hq12 & (q' & Hq' & (q6 & Hq6 & [= <-])%bind_Ok)%bind_Ok)%bind_Ok)%bind_Ok)%bind_Ok.
  unfold py_sqrt in Heps. destruct (fltb _ _); [done|]. injection Heps as <-.
  unfold py_div in Hq, Hq'. destruct (feqb _ _); [done|].
  injection Hq as <-. injection Hq' as <-.
  unfold py_pow in Hq12, Hq6.
  destruct (fis_inf (fpow _ 12) && _); [done|]. injection Hq12 as <-.
  destruct (fis_inf (fpow _ 6) && _); [done|]. injection Hq6 as <-.
  reflexivity.
Qed.
End Table.

(** ** Binary64 addition and multiplication commute *)

Lemma SFadd_comm prec emax x y : SFadd prec emax x y = SFadd prec emax y x.
Proof.
  destruct x as [sx|sx| |sx mx ex], y as [sy|sy| |sy my ey]; simpl;
    try reflexivity; try (by destruct sx, sy).
  by rewrite Z.min_comm, Z.add_comm.
Qed.

Lemma SFmul_comm prec emax x y : SFmul prec emax x y = SFmul prec emax y x.
Proof.
  destruct x as [sx|sx| |sx mx ex], y as [sy|sy| |sy my ey]; simpl;
    try reflexivity; try (by rewrite xorb_comm).
  by rewrite xorb_comm, Pos.mul_comm, Z.add_comm.
Qed.

Lemma float_add_comm (a b : float) : fadd a b = fadd b a.
Proof.
  simpl. apply Prim2SF_inj. rewrite !add_spec. apply SFadd_comm.
Qed.

Lemma float_mul_comm (a b : float) : fmul a b = fmul b a.
Proof.
  simpl. apply Prim2SF_inj. rewrite !mul_spec. apply SFmul_comm.
Qed.

(** ** [LennardJones.forward] *)

Section Baseline.
Context {F : Type} `{Arith F}.
Import LennardJones.

Lemma forward_requested (self : t F) system run_options :
  is_Some (outputs run_options !! "energy"%string) →
  forward self system run_options =
    (neighbors ← get_neighbors_list system (_neighbors self);
     total_energy ← pair_loop self system neighbors (of_int 0);
     Ok {[ "energy"%string := energy_block total_energy ]}).
Proof. intros [o Ho]. unfold forward. by rewrite Ho. Qed.

Lemma forward_not_requested (self : t F) system run_options :
  outputs run_options !! "energy"%string = None →
  forward self system run_options = Ok ∅.
Proof. intros Ho. unfold forward. by rewrite Ho. Qed.

(** The selection of atoms is read, defaulted, and not used. *)
Lemma forward_selected_atoms (self : t F) system outs sel sel' :
  forward self system {| outputs := outs; selected_atoms := sel |}
  = forward self system {| outputs := outs; selected_atoms := sel' |}.
Proof. reflexivity. Qed.

(** The loop stops at the first pair that raises. *)
Lemma pair_loop_raises (self : t F) system pre p post E e :
  Forall (λ q, is_ok (pair_energy self system q) = true) pre →
  pair_energy self system p = Err e →
  pair_loop self system (pre ++ p :: post) E = Err e.
Proof.
  intros Hpre Hp. revert E.
  induction Hpre as [|q pre Hq _ IH]; intros E; simpl.
  - by rewrite Hp.
  - apply is_ok_true in Hq as [v ->]. simpl. apply IH.
Qed.

(** The code's distance is the norm of the specification's displacement. *)
Lemma pair_distance_norm (system : System F) pos_i pos_j S :
  pair_distance system pos_i pos_j S
  = Spec.norm (Spec.displacement pos_i pos_j S (cell system)).
Proof.
  unfold pair_distance, Spec.norm, Spec.displacement, Spec.shift_vector,
    Spec.plus, Spec.minus, shift_matmul, Spec.scale, dot, vadd, vsub.
  destruct (cell system) as [[[[a0 a1] a2] [[b0 b1] b2]] [[c0 c1] c2]].
  destruct pos_i as [[x0 x1] x2], pos_j as [[y0 y1] y2], S as [[na nb] nc].
  reflexivity.
Qed.

Lemma dict_get_Some {V : Type} (d : gmap Z V) k v :
  d !! k = Some v → dict_get d k = Ok v.
Proof. unfold dict_get. by intros ->. Qed.

Lemma dict_get_None {V : Type} (d : gmap Z V) k :
  d !! k = None → dict_get d k = Err (KeyError (IntKey k)).
Proof. unfold dict_get. by intros ->. Qed.

(** The body of the loop, once the atoms and their table entry are known. *)
Lemma pair_energy_known (self : t F) system p a_i a_j e :
  tensor_index (atoms system) (first_atom p) = Ok a_i →
  tensor_index (atoms system) (second_atom p) = Ok a_j →
  table_get (_lj_params self) (a_species a_i) (a_species a_j) = Some e →
  pair_energy self system p
  = Ok (pair_term e (pair_distance system (a_position a_i) (a_position a_j)
                       (cell_shift p))).
Proof.
  intros Hi Hj Hget. unfold table_get in Hget.
  destruct (_lj_params self !! a_species a_i) as [row|] eqn:Hrow; [|done].
  change (row !! a_species a_j = Some e) in Hget.
  unfold pair_energy, species, positions.
  rewrite (tensor_index_fmap a_species _ _ _ Hi), bind_Ok_l.
  rewrite (dict_get_Some _ _ _ Hrow), bind_Ok_l.
  rewrite (tensor_index_fmap a_species _ _ _ Hj), bind_Ok_l.
  rewrite (dict_get_Some _ _ _ Hget), bind_Ok_l.
  rewrite (tensor_index_fmap a_position _ _ _ Hj), bind_Ok_l.
  by rewrite (tensor_index_fmap a_position _ _ _ Hi), bind_Ok_l.
Qed.

(** A species without a row, or without an entry in the row, is a
    [KeyError] for that species. *)
Lemma pair_energy_missing_first (self : t F) system p a_i :
  tensor_index (atoms system) (first_atom p) = Ok a_i →
  _lj_params self !! a_species a_i = None →
  pair_energy self system p = Err (KeyError (IntKey (a_species a_i))).
Proof.
  intros Hi Hrow. unfold pair_energy, species.
  rewrite (tensor_index_fmap a_species _ _ _ Hi), bind_Ok_l.
  by rewrite (dict_get_None _ _ Hrow).
Qed.

Lemma pair_energy_missing_second (self : t F) system p a_i a_j row :
  tensor_index (atoms system) (first_atom p) = Ok a_i →
  tensor_index (atoms system) (second_atom p) = Ok a_j →
  _lj_params self !! a_species a_i = Some row →
  row !! a_species a_j = None →
  pair_energy self system p = Err (KeyError (IntKey (a_species a_j))).
Proof.
  intros Hi Hj Hrow Hent. unfold pair_energy, species.
  rewrite (tensor_index_fmap a_species _ _ _ Hi), bind_Ok_l.
  rewrite (dict_get_Some _ _ _ Hrow), bind_Ok_l.
  rewrite (tensor_index_fmap a_species _ _ _ Hj), bind_Ok_l.
  by rewrite (dict_get_None _ _ Hent).
Qed.

(** Where the two arithmetics round alike, the raw term of the pair loop
    is the raw term of the specification. *)
Lemma e_ij_rounds_alike (sigma epsilon r : F) :
  rounds_alike sigma r → e_ij sigma epsilon r = Spec.lj sigma epsilon r.
Proof.
  intros (Hq & H12 & H6). unfold e_ij, Spec.lj. by rewrite Hq, H12, H6.
Qed.

(** The quotient of a pair for which the specification has a term. *)
Lemma pair_contribution_sigma_r cutoff parameters (system : System F) p v :
  Spec.pair_contribution cutoff parameters system p = Some v →
  ∃ a_i a_j p_i p_j,
    0 ≤ first_atom p ∧ 0 ≤ second_atom p
    ∧ atoms system !! Z.to_nat (first_atom p) = Some a_i
    ∧ atoms system !! Z.to_nat (second_atom p) = Some a_j
    ∧ parameters !! a_species a_i = Some p_i
    ∧ parameters !! a_species a_j = Some p_j
    ∧ v = Spec.shifted_term cutoff p_i p_j
            (Spec.norm (Spec.displacement (a_position a_i) (a_position a_j)
                          (cell_shift p) (cell system)))
    ∧ Spec.pair_sigma_r parameters system p
      = Some (Spec.sigma_ij (sigma p_i) (sigma p_j),
              Spec.norm (Spec.displacement (a_position a_i) (a_position a_j)
                           (cell_shift p) (cell system))).
Proof.
  intros Hspec. unfold Spec.pair_contribution in Hspec.
  apply bind_Some in Hspec as (Hi & _ & Hspec).
  apply bind_Some in Hspec as (Hj & _ & Hspec).
  apply bind_Some in Hspec as (a_i & Hai & Hspec).
  apply bind_Some in Hspec as (a_j & Haj & Hspec).
  apply bind_Some in Hspec as (p_i & Hpi & Hspec).
  apply bind_Some in Hspec as (p_j & Hpj & Hspec).
  injection Hspec as <-.
  exists a_i, a_j, p_i, p_j. do 7 (split; [done|]).
  unfold Spec.pair_sigma_r.
  rewrite !option_guard_True by done.
  apply bind_Some. exists a_i. split; [done|].
  apply bind_Some. exists a_j. split; [done|].
  apply bind_Some. exists p_i. split; [done|].
  apply bind_Some. exists p_j. split; [done|]. done.
Qed.

(** On the table of [__init__], the body of the loop computes the
    specification's term of a pair at whose quotient the two arithmetics
    round alike. *)
Lemma pair_energy_spec cutoff parameters (self : t F) system p v :
  __init__ cutoff parameters = Ok self →
  pair_rounds_alike parameters system p →
  Spec.pair_contribution cutoff parameters system p = Some v →
  pair_energy self system p = Ok v.
Proof.
  intros Hinit Halike Hspec.
  apply pair_contribution_sigma_r in Hspec
    as (a_i & a_j & p_i & p_j & Hi & Hj & Hai & Haj & Hpi & Hpj & -> & Hsr).
  apply Halike in Hsr.
  pose proof (init_table _ _ _ (a_species a_i) (a_species a_j) Hinit) as Ht.
  rewrite Hpi, Hpj in Ht.
  destruct Ht as (e & He & Hget).
  rewrite (pair_energy_known self system p a_i a_j e);
    [|by apply tensor_index_nonneg..|done].
  apply combine_Ok in He as ->.
  rewrite pair_distance_norm. unfold pair_term, Spec.shifted_term.
  by rewrite (e_ij_rounds_alike _ _ _ Hsr).
Qed.

Lemma pair_loop_spec cutoff parameters (self : t F) system pairs E E' :
  __init__ cutoff parameters = Ok self →
  Forall (pair_rounds_alike parameters system) pairs →
  Spec.accumulate cutoff parameters system pairs E = Some E' →
  pair_loop self system pairs E = Ok E'.
Proof.
  intros Hinit Halike. revert E.
  induction Halike as [|p rest Hp _ IH]; intros E Hacc.
  - simpl in *. congruence.
  - simpl in Hacc.
    destruct (Spec.pair_contribution cutoff parameters system p) as [v|] eqn:Hv;
      [|done].
    simpl in *. rewrite (pair_energy_spec _ _ _ _ _ _ Hinit Hp Hv). simpl.
    by apply IH.
Qed.

Lemma pair_loop_succeeds (self : t F) system pairs E :
  Forall (λ p, is_ok (pair_energy self system p) = true) pairs →
  ∃ E', pair_loop self system pairs E = Ok E'.
Proof.
  intros Hall. revert E.
  induction Hall as [|p pairs Hp _ IH]; intros E; simpl; [by eexists|].
  apply is_ok_true in Hp as [v ->]. rewrite bind_Ok_l. apply IH.
Qed.

(** A model built from [parameters] computes every pair whose atoms exist
    and have parameters. *)
Lemma supported_pair_is_computed cutoff parameters (self : t F) system p :
  __init__ cutoff parameters = Ok self →
  pair_is_supported parameters system p →
  is_ok (pair_energy self system p) = true.
Proof.
  intros Hinit (a_i & a_j & Hai & Haj & [p_i Hpi] & [p_j Hpj]).
  pose proof (init_table _ _ _ (a_species a_i) (a_species a_j) Hinit) as Ht.
  rewrite Hpi, Hpj in Ht. destruct Ht as (e & _ & Hget).
  by rewrite (pair_energy_known _ _ _ _ _ _ Hai Haj Hget).
Qed.
End Baseline.

(** ** Claims about the Lennard-Jones baseline *)

Section BaselineClaims.
Context {F : Type} `{Arith F}.
Import LennardJones.



(** C4.  When addition and multiplication commute (as they do in IEEE
    arithmetic), the table is symmetric: for species i and j of the
    parameter mapping, the entries (sigma, epsilon, shift) stored for
    (i, j) and for (j, i) both exist and are equal. *)
Theorem table_symmetric cutoff parameters (self : t F) i j :
  (∀ a b : F, fadd a b = fadd b a) →
  (∀ a b : F, fmul a b = fmul b a) →
  __init__ cutoff parameters = Ok self →
  is_Some (parameters !! i) →
  is_Some (parameters !! j) →
  ∃ e, table_get (_lj_params self) i j = Some e
       ∧ table_get (_lj_params self) j i = Some e.
Proof.
  intros Hadd Hmul Hinit [p_i Hi] [p_j Hj].
  pose proof (init_table _ _ _ i j Hinit) as Hij.
  pose proof (init_table _ _ _ j i Hinit) as Hji.
  rewrite Hi, Hj in Hij, Hji.
  destruct Hij as (e & Hc & Hij), Hji as (e' & Hc' & Hji).
  exists e. split; [done|]. rewrite Hji. f_equal.
  apply combine_Ok in Hc, Hc'. subst e e'.
  unfold Spec.sigma_ij, Spec.epsilon_ij.
  by rewrite (Hadd (sigma p_j)), (Hmul (epsilon p_j)).
Qed.

(** Without a failing lookup the loop adds the terms of all pairs, whatever
    the distances are: arithmetic never raises. *)
Lemma pair_loop_terms (self : t F) system pairs terms E :
  Forall2 (pair_has_term self system) pairs terms →
  pair_loop self system pairs E = Ok (foldl fadd E terms).
Proof.
  intros Hall. revert E.
  induction Hall as [|p v pairs terms Hp _ IH]; intros E; simpl; [done|].
  destruct Hp as (a_i & a_j & e & Hi & Hj & Hget & ->).
  rewrite (pair_energy_known _ _ _ _ _ _ Hi Hj Hget), bind_Ok_l. apply IH.
Qed.

(** C6 (as amended).  The distance of a pair is never tested, and a pair at
    distance zero raises nothing: whenever the atoms of every pair exist and
    their species have an entry in the table, [forward] returns the energy
    record, whose value is the sum, from 0 and in the order of the list, of
    the terms [e_ij - shift] of all pairs at their distances. *)
Theorem zero_distance_is_not_detected (self : t F) system run_options pairs terms :
  is_Some (outputs run_options !! "energy"%string) →
  get_neighbors_list system (_neighbors self) = Ok pairs →
  Forall2 (pair_has_term self system) pairs terms →
  forward self system run_options
  = Ok {[ "energy"%string := energy_block (foldl fadd (of_int 0) terms) ]}.
Proof.
  intros Hreq Hnl Hterms.
  rewrite (forward_requested _ _ _ Hreq), Hnl, bind_Ok_l.
  by rewrite (pair_loop_terms _ _ _ _ _ Hterms).
Qed.

(** C7 (as amended).  For a model built from [parameters], the species
    are looked up pair by pair, and nowhere else.  When the loop reaches
    the first pair with an atom whose species is not a key of [parameters],
    after the pairs before it have been computed, [forward] raises
    [KeyError] for that species (of the first atom if it is missing, else
    of the second), and returns no energy.  When the atoms of every pair
    have parameters, [forward] returns the energy record, whatever the
    species of the atoms that are in no pair. *)
Theorem missing_species_is_KeyError cutoff parameters (self : t F) system
    run_options pairs :
  __init__ cutoff parameters = Ok self →
  is_Some (outputs run_options !! "energy"%string) →
  get_neighbors_list system (_neighbors self) = Ok pairs →
  (∀ pre p post a_i a_j,
     pairs = pre ++ p :: post →
     Forall (λ q, is_ok (pair_energy self system q) = true) pre →
     tensor_index (atoms system) (first_atom p) = Ok a_i →
     tensor_index (atoms system) (second_atom p) = Ok a_j →
     parameters !! a_species a_i = None ∨ parameters !! a_species a_j = None →
     forward self system run_options
     = Err (KeyError (IntKey (match parameters !! a_species a_i with
                              | None => a_species a_i
                              | Some _ => a_species a_j
                              end))))
  ∧ (Forall (pair_is_supported parameters system) pairs →
     ∃ E, forward self system run_options
          = Ok {[ "energy"%string := energy_block E ]}).
Proof.
  intros Hinit Hreq Hnl.
  rewrite (forward_requested _ _ _ Hreq), Hnl, bind_Ok_l. split.
  - intros pre p post a_i a_j -> Hpre Hi Hj Hmiss.
    apply bind_Err_l, pair_loop_raises; [done|].
    pose proof (init_rows _ _ _ (a_species a_i) Hinit) as Hrows.
    destruct (parameters !! a_species a_i) as [p_i|].
    + destruct Hmiss as [?|Hmiss]; [done|].
      destruct Hrows as (row & Hrow & Hent). specialize (Hent (a_species a_j)).
      rewrite Hmiss in Hent.
      by apply (pair_energy_missing_second _ _ _ a_i a_j row).
    + by apply pair_energy_missing_first.
  - intros Hall.
    destruct (pair_loop_succeeds self system pairs (of_int 0)) as [E HE].
    + eapply Forall_impl; [exact Hall|]. intros p Hp.
      by eapply supported_pair_is_computed.
    + exists E. by rewrite HE.
Qed.

(** C10.  Two run options with the same requested outputs give the same
    result, whatever their selections of atoms. *)
Theorem forward_independent_of_selected_atoms (self : t F) system ro1 ro2 :
  outputs ro1 = outputs ro2 →
  forward self system ro1 = forward self system ro2.
Proof.
  destruct ro1 as [outs1 sel1], ro2 as [outs2 sel2]. simpl. intros <-.
  apply forward_selected_atoms.
Qed.
End BaselineClaims.

(** ** Claims about the composite model *)

Section CompositeClaims.
Context {F : Type} `{Arith F}.
Context {RascalineSystem NN : Type}.
Variable metatensor_system_to_rascaline : System F → RascalineSystem.
Variable nn_forward : NN → RascalineSystem → option Labels → result (list F) * NN.

Abbreviation wrapper_forward :=
  (ExportWrapper.forward metatensor_system_to_rascaline nn_forward).

(** What [ExportWrapper.forward] does once the energy is requested and the
    baseline has returned its record: one call of the learned model, whose
    answer decides the result. *)
Lemma wrapper_forward_cases (self : ExportWrapper.t) system run_options E_lj r nn' :
  is_Some (outputs run_options !! "energy"%string) →
  LennardJones.forward (ExportWrapper.lj self) system run_options
  = Ok {[ "energy"%string := energy_block E_lj ]} →
  nn_forward (ExportWrapper.nn_model self)
    (metatensor_system_to_rascaline system)
    (ExportWrapper.center_labels <$> selected_atoms run_options) = (r, nn') →
  wrapper_forward self system run_options
  = (match r with
     | Err e => Err e
     | Ok [v] => Ok {[ "energy"%string := energy_block (fadd E_lj v) ]}
     | Ok _ => Err RuntimeError
     end,
     {| ExportWrapper.lj := ExportWrapper.lj self; ExportWrapper.nn_model := nn' |}).
Proof.
  intros [o Ho] Hlj Hnn. unfold ExportWrapper.forward.
  rewrite Ho, Hlj, lookup_singleton_eq.
  destruct (selected_atoms run_options) as [l|]; simpl in Hnn; rewrite Hnn;
    destruct r as [[|v [|v' tl]]|e]; reflexivity.
Qed.

(** The selection the wrapper builds is the one of the specification. *)
Lemma selection_center_labels (sel : option (list Z)) :
  ExportWrapper.center_labels <$> sel = Spec.selection sel.
Proof.
  destruct sel as [l|]; [|done]. simpl. unfold ExportWrapper.center_labels.
  f_equal.
Qed.

(** C2.  When the energy is requested, the energy of the composite is the
    baseline energy, computed as with no selection of atoms, plus the
    energy the learned model returns when it is given the selected atoms,
    each once and in their order (no selection when [selected_atoms] is
    [None], which stands for all atoms); the baseline returns that same
    energy for every selection. *)
Theorem composite_energy_is_sum (self : ExportWrapper.t) system run_options
    E_lj E_nn nn' :
  is_Some (outputs run_options !! "energy"%string) →
  LennardJones.forward (ExportWrapper.lj self) system
    {| outputs := outputs run_options; selected_atoms := None |}
  = Ok {[ "energy"%string := energy_block E_lj ]} →
  nn_forward (ExportWrapper.nn_model self)
    (metatensor_system_to_rascaline system)
    (Spec.selection (selected_atoms run_options))
  = (Ok [E_nn], nn') →
  (wrapper_forward self system run_options).1
  = Ok {[ "energy"%string := energy_block (fadd E_lj E_nn) ]}
  ∧ ∀ sel, LennardJones.forward (ExportWrapper.lj self) system
             {| outputs := outputs run_options; selected_atoms := sel |}
           = Ok {[ "energy"%string := energy_block E_lj ]}.
Proof.
  intros Hreq Hlj Hnn.
  assert (Hsel : ∀ sel, LennardJones.forward (ExportWrapper.lj self) system
                   {| outputs := outputs run_options; selected_atoms := sel |}
                 = Ok {[ "energy"%string := energy_block E_lj ]}).
  { intros sel. rewrite <- Hlj. apply forward_selected_atoms. }
  split; [|exact Hsel].
  rewrite <- selection_center_labels in Hnn.
  rewrite (wrapper_forward_cases self system run_options E_lj (Ok [E_nn]) nn' Hreq);
    [done| |exact Hnn].
  destruct run_options as [outs sel]. apply Hsel.
Qed.

(** C5.  When "energy" is not a requested output, the Lennard-Jones module
    and the composite both return the empty dictionary, whatever the system
    is, and the composite leaves the learned model as it was: it is not
    called. *)
Theorem nothing_requested_nothing_done (lj : LennardJones.t F)
    (self : ExportWrapper.t) system run_options :
  outputs run_options !! "energy"%string = None →
  LennardJones.forward lj system run_options = Ok ∅
  ∧ wrapper_forward self system run_options = (Ok ∅, self).
Proof.
  intros Hno. split; [by apply forward_not_requested|].
  unfold ExportWrapper.forward. by rewrite Hno.
Qed.

(** C8 (as amended).  Once the baseline has returned its energy, the answer
    of the learned model decides the result: an exception it raises is
    raised unchanged; a tensor that has not exactly one element raises
    [RuntimeError] in [reshape]; a tensor of one element [v] gives the
    record of the sum, whether [v] is a number or not.  In the first two
    cases no record is returned. *)
Theorem learned_model_answer_decides (self : ExportWrapper.t) system run_options
    E_lj r nn' :
  is_Some (outputs run_options !! "energy"%string) →
  LennardJones.forward (ExportWrapper.lj self) system run_options
  = Ok {[ "energy"%string := energy_block E_lj ]} →
  nn_forward (ExportWrapper.nn_model self)
    (metatensor_system_to_rascaline system)
    (ExportWrapper.center_labels <$> selected_atoms run_options) = (r, nn') →
  (wrapper_forward self system run_options).1
  = match r with
    | Err e => Err e
    | Ok [v] => Ok {[ "energy"%string := energy_block (fadd E_lj v) ]}
    | Ok _ => Err RuntimeError
    end.
Proof.
  intros Hreq Hlj Hnn.
  by rewrite (wrapper_forward_cases self system run_options E_lj r nn' Hreq Hlj Hnn).
Qed.

(** The wrapper after a call differs from the wrapper before at most by
    the state of the learned model. *)
Lemma wrapper_forward_state (self : ExportWrapper.t) system run_options :
  (wrapper_forward self system run_options).2 = self
  ∨ (wrapper_forward self system run_options).2
    = {| ExportWrapper.lj := ExportWrapper.lj self;
         ExportWrapper.nn_model :=
           (nn_forward (ExportWrapper.nn_model self)
              (metatensor_system_to_rascaline system)
              (ExportWrapper.center_labels <$> selected_atoms run_options)).2 |}.
Proof.
  unfold ExportWrapper.forward.
  destruct (outputs run_options !! "energy"%string); [|by left].
  destruct (LennardJones.forward _ _ _) as [out|e]; [|by left].
  destruct (out !! "energy"%string); [|by left]. right.
  destruct (selected_atoms run_options) as [l|]; simpl;
    destruct (nn_forward _ _ _) as [[ans|e] nn']; simpl; try done;
    by destruct (reshape_1_1 ans).
Qed.

(** C9.  When the learned model keeps its state across a call (it is never
    mutated after construction), a call of the composite leaves the wrapper
    as it was, and a second call on the same system and options returns
    what the first returned. *)
Theorem evaluation_is_repeatable (self : ExportWrapper.t) system run_options :
  (∀ nn x sel, (nn_forward nn x sel).2 = nn) →
  (wrapper_forward self system run_options).2 = self
  ∧ (wrapper_forward (wrapper_forward self system run_options).2
       system run_options).1
    = (wrapper_forward self system run_options).1.
Proof.
  intros Hpure.
  assert (Hself : (wrapper_forward self system run_options).2 = self).
  { destruct (wrapper_forward_state self system run_options) as [->| ->];
      [done|]. rewrite Hpure. by destruct self. }
  split; [done|]. by rewrite Hself.
Qed.
End CompositeClaims.

(** ** The claims on concrete models, in binary64 *)

(** Proves the first part of a conjunction by computation, and keeps it as
    a hypothesis for the other part. *)
Ltac compute_first H :=
  match goal with
  | |- ?P ∧ _ => cut P; [intros H; split; [exact H|] | vm_compute; reflexivity]
  end.

Section Concrete.
Import LennardJones Examples.

Lemma energy_requested : is_Some (outputs run_energy !! "energy"%string).
Proof. eexists. vm_compute. reflexivity. Qed.

Lemma nan_is_not_zero : PrimFloat.nan ≠ of_int 0.
Proof.
  intros Heq. apply (f_equal PrimFloat.is_nan) in Heq.
  vm_compute in Heq. discriminate.
Qed.




(** C4, on the species 1 and 6. *)
Lemma table_symmetric_witness :
  (∀ a b : float, fadd a b = fadd b a)
  ∧ (∀ a b : float, fmul a b = fmul b a)
  ∧ ∃ self,
      __init__ 2%float parameters = Ok self
      ∧ is_Some (parameters !! 1)
      ∧ is_Some (parameters !! 6)
      ∧ ∃ e, table_get (_lj_params self) 1 6 = Some e
             ∧ table_get (_lj_params self) 6 1 = Some e.
Proof.
  split; [exact float_add_comm|]. split; [exact float_mul_comm|].
  eexists.
  split; [vm_compute; reflexivity|].
  split; [eexists; vm_compute; reflexivity|].
  split; [eexists; vm_compute; reflexivity|].
  eapply (table_symmetric 2%float parameters _ 1 6 float_add_comm float_mul_comm);
    [vm_compute; reflexivity | eexists; vm_compute; reflexivity
    | eexists; vm_compute; reflexivity].
Defined.

(** C6, on two atoms at the same place: the pair is at distance zero, its
    term is not a number, and the record is returned. *)
Lemma zero_distance_is_not_detected_witness :
  ∃ self,
    __init__ 2%float parameters = Ok self
    ∧ is_Some (outputs run_energy !! "energy"%string)
    ∧ get_neighbors_list overlapping (_neighbors self) = Ok [pr 0 1 (0, 0, 0)]
    ∧ Forall2 (pair_has_term self overlapping) [pr 0 1 (0, 0, 0)] [nan]
    ∧ forward self overlapping run_energy
      = Ok {[ "energy"%string := energy_block (foldl fadd (of_int 0) [nan]) ]}.
Proof.
  eexists.
  split; [vm_compute; reflexivity|].
  split; [exact energy_requested|].
  split; [reflexivity|].
  match goal with |- Forall2 ?P ?l ?k ∧ _ => assert (Hterms : Forall2 P l k) end.
  { constructor; [|constructor]. eexists _, _, _.
    split; [vm_compute; reflexivity|].
    split; [vm_compute; reflexivity|].
    split; [vm_compute; reflexivity|]. vm_compute; reflexivity. }
  split; [exact Hterms|].
  exact (zero_distance_is_not_detected _ overlapping run_energy
           [pr 0 1 (0, 0, 0)] [nan] energy_requested eq_refl Hterms).
Defined.

(** C6 fails on the same system: the two atoms are at distance 0, and
    [forward] returns a record whose energy is not a number. *)
Lemma zero_distance_returns_nan :
  pair_distance overlapping (0.5, 0.5, 0.5)%float (0.5, 0.5, 0.5)%float (0, 0, 0)
  = 0%float
  ∧ evaluate 2%float parameters overlapping run_energy
    = Ok {[ "energy"%string := energy_block nan ]}.
Proof. split; vm_compute; reflexivity. Qed.
(** C7, on two systems of three atoms, the third of species 9, which has
    no parameters.  In the first the second pair names the third atom: the
    first pair is computed, the second raises.  In the second the third
    atom is in no pair, and the energy is returned. *)
Lemma missing_species_is_KeyError_witness :
  ∃ self,
    __init__ 2%float parameters = Ok self
    ∧ is_Some (outputs run_energy !! "energy"%string)
    ∧ get_neighbors_list stranger_second (_neighbors self)
      = Ok ([pr 0 1 (0, 0, 0)] ++ pr 1 2 (0, 0, 0) :: [])
    ∧ Forall (λ q, is_ok (pair_energy self stranger_second q) = true)
        [pr 0 1 (0, 0, 0)]
    ∧ tensor_index (atoms stranger_second) 1 = Ok (at_ 6 1 0 0)
    ∧ tensor_index (atoms stranger_second) 2 = Ok (at_ 9 0 1 0)
    ∧ (parameters !! 6 = None ∨ parameters !! 9 = None)
    ∧ forward self stranger_second run_energy = Err (KeyError (IntKey 9))
    ∧ species stranger_aside = [1; 6; 9]
    ∧ get_neighbors_list stranger_aside (_neighbors self) = Ok [pr 0 1 (0, 0, 0)]
    ∧ Forall (pair_is_supported parameters stranger_aside) [pr 0 1 (0, 0, 0)]
    ∧ ∃ E, forward self stranger_aside run_energy
           = Ok {[ "energy"%string := energy_block E ]}.
Proof.
  eexists.
  compute_first Hinit.
  split; [exact energy_requested|].
  split; [reflexivity|].
  match goal with |- Forall ?P ?l ∧ _ => assert (Hpre : Forall P l) end.
  { apply Forall_singleton. vm_compute; reflexivity. }
  split; [exact Hpre|].
  split; [reflexivity|]. split; [reflexivity|].
  split; [right; vm_compute; reflexivity|].
  split.
  { exact (proj1 (missing_species_is_KeyError 2%float parameters _ stranger_second
                    run_energy _ Hinit energy_requested eq_refl)
             [pr 0 1 (0, 0, 0)] (pr 1 2 (0, 0, 0)) [] (at_ 6 1 0 0)
             (at_ 9 0 1 0) eq_refl Hpre eq_refl eq_refl (or_intror eq_refl)). }
  split; [reflexivity|]. split; [reflexivity|].
  assert (Hall : Forall (pair_is_supported parameters stranger_aside)
                   [pr 0 1 (0, 0, 0)]).
  { apply Forall_singleton. exists (at_ 1 0 0 0), (at_ 6 1 0 0).
    split; [reflexivity|]. split; [reflexivity|].
    split; eexists; vm_compute; reflexivity. }
  split; [exact Hall|].
  exact (proj2 (missing_species_is_KeyError 2%float parameters _ stranger_aside
                  run_energy _ Hinit energy_requested eq_refl) Hall).
Defined.

(** C7 fails on a system with one atom of species 9 and no pair: no
    exception, the energy is 0. *)
Lemma lone_unsupported_atom_is_accepted :
  species lone_stranger = [9]
  ∧ parameters !! 9 = None
  ∧ evaluate 2%float parameters lone_stranger run_energy
    = Ok {[ "energy"%string := energy_block 0%float ]}.
Proof. split; [reflexivity|]. split; vm_compute; reflexivity. Qed.

(** C10, with no selection and with the selection of atom 0. *)
Lemma forward_independent_of_selected_atoms_witness :
  ∃ self,
    __init__ 2%float parameters = Ok self
    ∧ outputs run_energy = outputs run_energy_selected
    ∧ forward self dimer run_energy = forward self dimer run_energy_selected.
Proof.
  eexists.
  split; [vm_compute; reflexivity|].
  split; [reflexivity|].
  exact (forward_independent_of_selected_atoms _ dimer run_energy
           run_energy_selected eq_refl).
Defined.

(** C2, with the selection of the second atom and a learned model that
    adds up the species numbers of the atoms it is asked for: 6 for the
    second atom alone, 7 for both.  The baseline energy is computed on both
    atoms. *)
Lemma composite_energy_is_sum_witness :
  ∃ lj,
    __init__ 2%float parameters = Ok lj
    ∧ is_Some (outputs run_energy_second !! "energy"%string)
    ∧ forward lj dimer
        {| outputs := outputs run_energy_second; selected_atoms := None |}
      = Ok {[ "energy"%string := energy_block 0x1.da09d03ep+7%float ]}
    ∧ nn_species_sum 0%nat dimer None = (Ok [7%float], 1%nat)
    ∧ nn_species_sum 0%nat dimer (Spec.selection (Some [1]))
      = (Ok [6%float], 1%nat)
    ∧ (ExportWrapper.forward id nn_species_sum
         (ExportWrapper.__init__ lj 0%nat) dimer run_energy_second).1
      = Ok {[ "energy"%string :=
                energy_block (fadd 0x1.da09d03ep+7 6)%float ]}
    ∧ ∀ sel, forward lj dimer
               {| outputs := outputs run_energy_second; selected_atoms := sel |}
             = Ok {[ "energy"%string := energy_block 0x1.da09d03ep+7%float ]}.
Proof.
  eexists.
  split; [vm_compute; reflexivity|].
  split; [exact energy_requested|].
  match goal with |- ?P ∧ _ => assert (Hlj : P) by (vm_compute; reflexivity) end.
  split; [exact Hlj|].
  split; [vm_compute; reflexivity|].
  assert (Hnn : nn_species_sum 0%nat dimer (Spec.selection (Some [1]))
                = (Ok [6%float], 1%nat)) by (vm_compute; reflexivity).
  split; [exact Hnn|].
  exact (composite_energy_is_sum id nn_species_sum (ExportWrapper.__init__ _ 0%nat)
           dimer run_energy_second _ _ 1%nat energy_requested Hlj Hnn).
Defined.

(** C5, on a system for which computing the energy would raise, with a
    learned model that counts its calls: the count stays 0. *)
Lemma nothing_requested_nothing_done_witness :
  ∃ lj,
    __init__ 2%float parameters = Ok lj
    ∧ outputs run_nothing !! "energy"%string = None
    ∧ forward lj stranger_second run_nothing = Ok ∅
    ∧ ExportWrapper.forward id (nn_constant 1)
        (ExportWrapper.__init__ lj 0%nat) stranger_second run_nothing
      = (Ok ∅, ExportWrapper.__init__ lj 0%nat).
Proof.
  eexists.
  split; [vm_compute; reflexivity|].
  split; [reflexivity|].
  exact (nothing_requested_nothing_done id (nn_constant 1) _
           (ExportWrapper.__init__ _ 0%nat) stranger_second run_nothing eq_refl).
Defined.

(** C8, with a learned model that raises: its exception comes out. *)
Lemma learned_model_answer_decides_witness :
  ∃ lj,
    __init__ 2%float parameters = Ok lj
    ∧ is_Some (outputs run_energy !! "energy"%string)
    ∧ forward lj dimer run_energy
      = Ok {[ "energy"%string := energy_block 0x1.da09d03ep+7%float ]}
    ∧ nn_raises 0%nat dimer None = (Err (Raised "OutOfMemoryError"), 1%nat)
    ∧ (ExportWrapper.forward id nn_raises
         (ExportWrapper.__init__ lj 0%nat) dimer run_energy).1
      = Err (Raised "OutOfMemoryError").
Proof.
  eexists.
  split; [vm_compute; reflexivity|].
  split; [exact energy_requested|].
  match goal with |- ?P ∧ _ => assert (Hlj : P) by (vm_compute; reflexivity) end.
  split; [exact Hlj|].
  split; [reflexivity|].
  exact (learned_model_answer_decides id nn_raises (ExportWrapper.__init__ _ 0%nat)
           dimer run_energy _ _ 1%nat energy_requested Hlj eq_refl).
Defined.

(** C8 fails with a learned model that answers NaN: the composite returns
    a record, whose energy is not a number; with one that raises, the
    exception is the learned model's own; with one that answers two values,
    it is the [RuntimeError] of [reshape]. *)
Lemma nan_from_learned_model_is_returned :
  ∃ lj,
    __init__ 2%float parameters = Ok lj
    ∧ nn_constant nan 0%nat dimer None = (Ok [nan], 1%nat)
    ∧ (ExportWrapper.forward id (nn_constant nan)
         (ExportWrapper.__init__ lj 0%nat) dimer run_energy).1
      = Ok {[ "energy"%string := energy_block nan ]}
    ∧ (ExportWrapper.forward id nn_raises
         (ExportWrapper.__init__ lj 0%nat) dimer run_energy).1
      = Err (Raised "OutOfMemoryError")
    ∧ (ExportWrapper.forward id nn_two_values
         (ExportWrapper.__init__ lj 0%nat) dimer run_energy).1
      = Err RuntimeError.
Proof.
  eexists.
  split; [vm_compute; reflexivity|].
  split; [reflexivity|].
  split; [vm_compute; reflexivity|].
  split; vm_compute; reflexivity.
Qed.

(** C9, with a learned model that keeps no state. *)
Lemma evaluation_is_repeatable_witness :
  (∀ nn x sel, (nn_stateless nn x sel).2 = nn)
  ∧ ∃ lj,
      __init__ 2%float parameters = Ok lj
      ∧ (ExportWrapper.forward id nn_stateless
           (ExportWrapper.__init__ lj ()) dimer run_energy_selected).2
        = ExportWrapper.__init__ lj ()
      ∧ (ExportWrapper.forward id nn_stateless
           (ExportWrapper.forward id nn_stateless
              (ExportWrapper.__init__ lj ()) dimer run_energy_selected).2
           dimer run_energy_selected).1
        = (ExportWrapper.forward id nn_stateless
             (ExportWrapper.__init__ lj ()) dimer run_energy_selected).1.
Proof.
  assert (Hpure : ∀ nn x sel, (nn_stateless nn x sel).2 = nn) by by intros [].
  split; [exact Hpure|].
  eexists.
  split; [vm_compute; reflexivity|].
  exact (evaluation_is_repeatable id nn_stateless (ExportWrapper.__init__ _ ())
           dimer run_energy_selected Hpure).
Defined.
End Concrete.

(** * Further properties of the code *)

(** ** The constructor of the Lennard-Jones module *)

Section Constructor.
Context {F : Type} `{Arith F}.
Import LennardJones.

Lemma fill_succeeds {V W : Type} (f : V → result W) items acc :
  (∀ k v, (k, v) ∈ items → is_ok (f v) = true) →
  ∃ m, fill f items acc = Ok m.
Proof.
  revert acc. induction items as [|[k v] rest IH]; intros acc Hall; simpl.
  - by eexists.
  - destruct (f v) as [w|e] eqn:Hf.
    + rewrite bind_Ok_l. apply IH. intros k' v' Hin. apply (Hall k').
      by apply list_elem_of_further.
    + specialize (Hall k v (list_elem_of_here _ _)). by rewrite Hf in Hall.
Qed.

Lemma init_ok_combine_ok cutoff parameters (self : t F) i j p_i p_j :
  __init__ cutoff parameters = Ok self →
  parameters !! i = Some p_i →
  parameters !! j = Some p_j →
  is_ok (combine cutoff p_i p_j) = true.
Proof.
  intros Hinit Hi Hj. pose proof (init_table _ _ _ i j Hinit) as Ht.
  rewrite Hi, Hj in Ht. destruct Ht as (e & -> & _). done.
Qed.

(** What makes the combination of two species raise. *)
Lemma combine_raises cutoff (p_i p_j : Parameters F) :
  let q := fdiv (Spec.sigma_ij (sigma p_i) (sigma p_j)) cutoff in
  fltb (fmul (epsilon p_i) (epsilon p_j)) (of_int 0) = true
  ∨ feqb cutoff (of_int 0) = true
  ∨ fis_inf (fpow q 12) && negb (fis_inf q) = true
  ∨ fis_inf (fpow q 6) && negb (fis_inf q) = true →
  is_ok (combine cutoff p_i p_j) = false.
Proof.
  intros q Hbad. unfold combine, py_sqrt, py_div, py_pow.
  fold (Spec.sigma_ij (sigma p_i) (sigma p_j)).
  destruct (fltb _ _); [done|]. rewrite bind_Ok_l.
  destruct (feqb _ _); [done|]. rewrite bind_Ok_l. fold q.
  destruct (fis_inf (fpow q 12) && _); [done|]. rewrite !bind_Ok_l. fold q.
  destruct (fis_inf (fpow q 6) && _); [done|].
  by destruct Hbad as [?|[?|[?|?]]].
Qed.

(** X1.  The constructor returns a model exactly when the combination of
    parameters raises for no ordered pair of species of [parameters]: no
    model with a partial table is ever built. *)
Theorem init_succeeds_iff_every_pair_combines cutoff (parameters : gmap Z (Parameters F)) :
  is_ok (__init__ cutoff parameters) = true
  ↔ ∀ i j p_i p_j,
      parameters !! i = Some p_i →
      parameters !! j = Some p_j →
      is_ok (combine cutoff p_i p_j) = true.
Proof.
  split.
  - intros [self Hinit]%is_ok_true i j p_i p_j Hi Hj.
    by eapply init_ok_combine_ok.
  - intros Hall. apply is_ok_true. unfold __init__.
    destruct (fill_succeeds (λ p_i, inner_loop cutoff p_i (map_to_list parameters) ∅)
                (map_to_list parameters) ∅) as [table Htable].
    + intros i p_i Hi%elem_of_map_to_list. apply is_ok_true.
      rewrite inner_loop_fill. apply fill_succeeds.
      intros j p_j Hj%elem_of_map_to_list. by apply (Hall i j).
    + rewrite outer_loop_fill, Htable, bind_Ok_l. by eexists.
Qed.

(** X2.  The table of a model has one row for each species of
    [parameters] and no other, and every row has one entry for each species
    of [parameters] and no other. *)
Theorem table_keys_are_the_species cutoff parameters (self : t F) :
  __init__ cutoff parameters = Ok self →
  dom (_lj_params self) = dom parameters
  ∧ ∀ i row, _lj_params self !! i = Some row → dom row = dom parameters.
Proof.
  intros Hinit. split.
  - apply set_eq. intros i. rewrite !elem_of_dom.
    pose proof (init_rows _ _ _ i Hinit) as Hi.
    destruct (parameters !! i) as [p_i|].
    + destruct Hi as (row & -> & _). split; eauto.
    + rewrite Hi. split; intros [? ?]; done.
  - intros i row Hrow. pose proof (init_rows _ _ _ i Hinit) as Hi.
    destruct (parameters !! i) as [p_i|]; [|congruence].
    destruct Hi as (row' & Hrow' & Hent).
    assert (row' = row) as -> by congruence.
    apply set_eq. intros j. rewrite !elem_of_dom. specialize (Hent j).
    destruct (parameters !! j) as [p_j|].
    + destruct Hent as (e & _ & ->). split; eauto.
    + rewrite Hent. split; intros [? ?]; done.
Qed.

(** X3.  With a cutoff equal to zero and at least one species, the
    constructor raises, [ValueError] from the square root or
    [ZeroDivisionError] from the division by the cutoff. *)
Theorem zero_cutoff_builds_nothing cutoff (parameters : gmap Z (Parameters F)) :
  feqb cutoff (of_int 0) = true →
  parameters ≠ ∅ →
  __init__ cutoff parameters = Err ValueError
  ∨ __init__ cutoff parameters = Err ZeroDivisionError.
Proof.
  intros Hzero Hne. unfold __init__.
  destruct (map_to_list parameters) as [|[s p] rest] eqn:Hitems.
  { by apply map_to_list_empty_iff in Hitems. }
  assert (Hc : combine cutoff p p = Err ValueError
               ∨ combine cutoff p p = Err ZeroDivisionError).
  { unfold combine, py_sqrt, py_div.
    destruct (fltb _ _); [by left|]. rewrite bind_Ok_l, Hzero. by right. }
  simpl. destruct Hc as [-> | ->]; [by left | by right].
Qed.

(** X4.  If for some ordered pair of species the product of the epsilons
    is negative, the cutoff is zero, or a power of sigma_ij / cutoff
    overflows, the constructor returns no model. *)
Theorem bad_pair_builds_nothing cutoff (parameters : gmap Z (Parameters F)) i j p_i p_j :
  parameters !! i = Some p_i →
  parameters !! j = Some p_j →
  (let q := fdiv (Spec.sigma_ij (sigma p_i) (sigma p_j)) cutoff in
   fltb (fmul (epsilon p_i) (epsilon p_j)) (of_int 0) = true
   ∨ feqb cutoff (of_int 0) = true
   ∨ fis_inf (fpow q 12) && negb (fis_inf q) = true
   ∨ fis_inf (fpow q 6) && negb (fis_inf q) = true) →
  is_ok (__init__ cutoff parameters) = false.
Proof.
  intros Hi Hj Hbad. apply combine_raises in Hbad.
  destruct (__init__ cutoff parameters) as [self|e] eqn:Hinit; [|done].
  by rewrite (init_ok_combine_ok _ _ _ _ _ _ _ Hinit Hi Hj) in Hbad.
Qed.
End Constructor.

(** ** The pair loop: indices, species, and what is returned *)

Section PairLoop.
Context {F : Type} `{Arith F}.
Import LennardJones.

Lemma tensor_index_in_range {A : Type} (t : list A) (i : Z) :
  - Z.of_nat (length t) ≤ i < Z.of_nat (length t) →
  ∃ x, tensor_index t i = Ok x ∧ x ∈ t.
Proof.
  intros Hi. unfold tensor_index.
  set (k := if i <? 0 then i + Z.of_nat (length t) else i).
  assert (Hk : 0 ≤ k < Z.of_nat (length t)).
  { unfold k. destruct (Z.ltb_spec i 0); lia. }
  destruct (Z.leb_spec 0 k) as [_|?]; [|lia].
  destruct (Z.ltb_spec k (Z.of_nat (length t))) as [_|?]; [|lia]. simpl.
  destruct (lookup_lt_is_Some_2 t (Z.to_nat k)) as [x Hx]; [lia|].
  rewrite Hx. exists x. split; [done|]. by eapply list_elem_of_lookup_2.
Qed.

Lemma tensor_index_out_of_range {A : Type} (t : list A) (i : Z) :
  i < - Z.of_nat (length t) ∨ Z.of_nat (length t) ≤ i →
  tensor_index t i = Err IndexError.
Proof.
  intros Hi. unfold tensor_index.
  destruct (Z.ltb_spec i 0).
  - destruct (Z.leb_spec 0 (i + Z.of_nat (length t))); [lia|done].
  - destruct (Z.leb_spec 0 i); [|lia].
    destruct (Z.ltb_spec i (Z.of_nat (length t))); [lia|done].
Qed.

Lemma tensor_index_from_end {A : Type} (t : list A) (i : Z) :
  0 ≤ i < Z.of_nat (length t) →
  tensor_index t (i - Z.of_nat (length t)) = tensor_index t i.
Proof.
  intros Hi. unfold tensor_index.
  destruct (Z.ltb_spec (i - Z.of_nat (length t)) 0); [|lia].
  destruct (Z.ltb_spec i 0); [lia|].
  by replace (i - Z.of_nat (length t) + Z.of_nat (length t)) with i by lia.
Qed.

(** X5.  A model built from [parameters] evaluates every system whose
    atoms all have a species of [parameters], when the system holds the
    neighbors list the model requests and the atoms of its pairs exist: the
    energy record is returned, and no [KeyError] or [IndexError] is
    raised. *)
Theorem supported_systems_are_evaluated cutoff parameters (self : t F) system
    run_options pairs :
  __init__ cutoff parameters = Ok self →
  is_Some (outputs run_options !! "energy"%string) →
  (∀ o, o ∈ requested_neighbors_lists self →
        get_neighbors_list system o = Ok pairs) →
  Forall (λ a, is_Some (parameters !! a_species a)) (atoms system) →
  Forall (λ p,
            - Z.of_nat (length (atoms system)) ≤ first_atom p
              < Z.of_nat (length (atoms system))
            ∧ - Z.of_nat (length (atoms system)) ≤ second_atom p
              < Z.of_nat (length (atoms system))) pairs →
  ∃ E, forward self system run_options
       = Ok {[ "energy"%string := energy_block E ]}.
Proof.
  intros Hinit Hreq Hnl Hspecies Hpairs.
  rewrite (forward_requested _ _ _ Hreq), (Hnl (_neighbors self)), bind_Ok_l.
  2:{ apply list_elem_of_here. }
  destruct (pair_loop_succeeds self system pairs (of_int 0)) as [E HE].
  - eapply Forall_impl; [exact Hpairs|]. intros p [Hi Hj].
    destruct (tensor_index_in_range _ _ Hi) as (a_i & Hai & Hin_i).
    destruct (tensor_index_in_range _ _ Hj) as (a_j & Haj & Hin_j).
    rewrite Forall_forall in Hspecies.
    destruct (Hspecies _ Hin_i) as [p_i Hpi], (Hspecies _ Hin_j) as [p_j Hpj].
    pose proof (init_table _ _ _ (a_species a_i) (a_species a_j) Hinit) as Ht.
    rewrite Hpi, Hpj in Ht. destruct Ht as (e & _ & Hget).
    by rewrite (pair_energy_known _ _ _ _ _ _ Hai Haj Hget).
  - exists E. by rewrite HE.
Qed.

(** X6.  When the loop reaches the first pair whose first atom is out of
    range, or whose first atom has a row in the table and whose second atom
    is out of range, [forward] raises [IndexError] and returns no energy. *)
Theorem atom_out_of_range_is_IndexError (self : t F) system run_options pre p post :
  is_Some (outputs run_options !! "energy"%string) →
  get_neighbors_list system (_neighbors self) = Ok (pre ++ p :: post) →
  Forall (λ q, is_ok (pair_energy self system q) = true) pre →
  (let n := Z.of_nat (length (atoms system)) in
   (first_atom p < - n ∨ n ≤ first_atom p)
   ∨ ((∃ a_i, tensor_index (atoms system) (first_atom p) = Ok a_i
              ∧ is_Some (_lj_params self !! a_species a_i))
      ∧ (second_atom p < - n ∨ n ≤ second_atom p))) →
  forward self system run_options = Err IndexError.
Proof.
  intros Hreq Hnl Hpre Hbad.
  rewrite (forward_requested _ _ _ Hreq), Hnl, bind_Ok_l.
  apply bind_Err_l, pair_loop_raises; [done|].
  unfold pair_energy, species.
  destruct Hbad as [Hi|[(a_i & Hi & [row Hrow]) Hj]].
  - rewrite (tensor_index_out_of_range (a_species <$> atoms system) (first_atom p));
      [reflexivity|]. by rewrite length_fmap.
  - rewrite (tensor_index_fmap a_species _ _ _ Hi), bind_Ok_l.
    rewrite (dict_get_Some _ _ _ Hrow), bind_Ok_l.
    rewrite (tensor_index_out_of_range (a_species <$> atoms system) (second_atom p));
      [reflexivity|]. by rewrite length_fmap.
Qed.

(** X7.  Negative atom indices are accepted and count from the end: the
    pair (i - n, j - n, S) of a system of n atoms is evaluated as the pair
    (i, j, S). *)
Theorem negative_indices_count_from_the_end (self : t F) system i j S :
  0 ≤ i < Z.of_nat (length (atoms system)) →
  0 ≤ j < Z.of_nat (length (atoms system)) →
  pair_energy self system
    {| first_atom := i - Z.of_nat (length (atoms system));
       second_atom := j - Z.of_nat (length (atoms system));
       cell_shift := S |}
  = pair_energy self system
      {| first_atom := i; second_atom := j; cell_shift := S |}.
Proof.
  intros Hi Hj. unfold pair_energy, species, positions. simpl.
  pose proof (tensor_index_from_end (a_species <$> atoms system) i) as Hsi.
  pose proof (tensor_index_from_end (a_species <$> atoms system) j) as Hsj.
  pose proof (tensor_index_from_end (a_position <$> atoms system) i) as Hpi.
  pose proof (tensor_index_from_end (a_position <$> atoms system) j) as Hpj.
  rewrite length_fmap in Hsi. rewrite length_fmap in Hsj.
  rewrite length_fmap in Hpi. rewrite length_fmap in Hpj.
  by rewrite Hsi, Hsj, Hpi, Hpj.
Qed.

(** What [forward] returns has the key "energy" when it was requested and
    no key otherwise. *)
Lemma forward_keys (self : t F) system run_options out :
  forward self system run_options = Ok out →
  dom out = dom (outputs run_options) ∩ {[ "energy"%string ]}.
Proof.
  unfold forward.
  destruct (outputs run_options !! "energy"%string) as [o|] eqn:Ho.
  - intros (pairs & _ & (E & _ & [= <-])%bind_Ok)%bind_Ok.
    rewrite dom_singleton_L. apply elem_of_dom_2 in Ho.
    apply set_eq. intros x. rewrite elem_of_intersection, elem_of_singleton.
    split; [by intros -> | by intros [_ ?]].
  - intros [= <-]. rewrite dom_empty_L. apply not_elem_of_dom in Ho.
    apply set_eq. intros x. rewrite elem_of_intersection, elem_of_singleton.
    split; [by intros ?%elem_of_empty | by intros [? ->]].
Qed.
End PairLoop.

(** ** The two export wrappers *)

Section Wrappers.
Context {F : Type} `{Arith F}.
Context {RascalineSystem NN : Type}.
Variable metatensor_system_to_rascaline : System F → RascalineSystem.
Variable nn_forward : NN → RascalineSystem → option Labels → result (list F) * NN.

Abbreviation lj_wrapper_forward :=
  (ExportWrapper.forward metatensor_system_to_rascaline nn_forward).
Abbreviation plain_wrapper_forward :=
  (ExportWrapper1.forward metatensor_system_to_rascaline nn_forward).

(** X8.  When the Lennard-Jones module raises (no neighbors list, an atom
    out of range, a species without parameters), the composite raises the
    same exception and the learned model is not called: the wrapper is
    returned as it was. *)
Theorem baseline_failure_skips_learned_model (self : ExportWrapper.t) system
    run_options e :
  LennardJones.forward (ExportWrapper.lj self) system run_options = Err e →
  lj_wrapper_forward self system run_options = (Err e, self).
Proof.
  intros Hlj. unfold ExportWrapper.forward.
  destruct (outputs run_options !! "energy"%string) as [o|] eqn:Ho.
  - by rewrite Hlj.
  - by rewrite (forward_not_requested _ _ _ Ho) in Hlj.
Qed.

(** X9.  What the Lennard-Jones module and the composite return has the
    key "energy" when it was requested and no key otherwise: an output
    other than the energy is never returned, requested or not. *)
Theorem only_energy_is_returned (lj : LennardJones.t F) (self : ExportWrapper.t)
    system run_options out out' :
  (LennardJones.forward lj system run_options = Ok out →
   dom out = dom (outputs run_options) ∩ {[ "energy"%string ]})
  ∧ ((lj_wrapper_forward self system run_options).1 = Ok out' →
     dom out' = dom (outputs run_options) ∩ {[ "energy"%string ]}).
Proof.
  split; [apply forward_keys|].
  unfold ExportWrapper.forward.
  destruct (outputs run_options !! "energy"%string) as [o|] eqn:Ho.
  - apply elem_of_dom_2 in Ho.
    assert (Hdom : dom ({[ "energy"%string := energy_block (of_int 0) ]}
                          : gmap string (TensorBlock F))
                   = dom (outputs run_options) ∩ {[ "energy"%string ]}).
    { rewrite dom_singleton_L. apply set_eq. intros x.
      rewrite elem_of_intersection, elem_of_singleton.
      split; [by intros -> | by intros [_ ?]]. }
    rewrite dom_singleton_L in Hdom.
    destruct (LennardJones.forward _ _ _) as [outputs_lj|e]; [|done].
    destruct (outputs_lj !! "energy"%string) as [lj_energy|]; [|done].
    destruct (nn_forward _ _ _) as [[ans|e] nn']; [|done].
    destruct (reshape_1_1 ans) as [v|e]; [|done].
    simpl. intros [= <-]. by rewrite dom_singleton_L.
  - simpl. intros [= <-]. rewrite dom_empty_L. apply not_elem_of_dom in Ho.
    apply set_eq. intros x. rewrite elem_of_intersection, elem_of_singleton.
    split; [by intros ?%elem_of_empty | by intros [? ->]].
Qed.

(** X14.  The composite of the third notebook is the wrapper of the first
    notebook with the baseline added: on a system for which the
    Lennard-Jones module returns the energy [E_lj], it calls the learned
    model as the first wrapper does, returns the first wrapper's record
    with [E_lj] added to the energy, and raises what the first wrapper
    raises. *)
Theorem composite_is_plain_wrapper_plus_baseline (lj : LennardJones.t F) (nn nn' : NN)
    system run_options E_lj r :
  LennardJones.forward lj system run_options
  = Ok {[ "energy"%string := energy_block E_lj ]} →
  plain_wrapper_forward {| ExportWrapper1.model := nn |} system run_options
  = (r, {| ExportWrapper1.model := nn' |}) →
  lj_wrapper_forward {| ExportWrapper.lj := lj; ExportWrapper.nn_model := nn |}
    system run_options
  = (match r with
     | Ok out => Ok ((λ b, energy_block (fadd E_lj (values b))) <$> out)
     | Err e => Err e
     end,
     {| ExportWrapper.lj := lj; ExportWrapper.nn_model := nn' |}).
Proof.
  intros Hlj. unfold ExportWrapper.forward, ExportWrapper1.forward. simpl.
  destruct (outputs run_options !! "energy"%string) as [o|] eqn:Ho.
  - rewrite Hlj, lookup_singleton_eq.
    destruct (nn_forward _ _ _) as [[ans|e] nn''].
    + destruct (reshape_1_1 ans) as [v|e]; intros [= <- <-]; [|done].
      by rewrite map_fmap_singleton.
    + by intros [= <- <-].
  - rewrite (forward_not_requested _ _ _ Ho) in Hlj.
    apply (f_equal (λ r : result (gmap string (TensorBlock F)),
                      match r with
                      | Ok m => m !! "energy"%string
                      | Err _ => None
                      end)) in Hlj.
    by rewrite lookup_empty, lookup_singleton_eq in Hlj.
Qed.
End Wrappers.

(** ** The SOAP model *)

Section Soap.
Context {F : Type} `{Arith F}.
Context {RSystem Calculator TensorMap Net Hyper : Type}.
Variable SoapPowerSpectrum : SOAPModel.SoapParameters Hyper → result Calculator.
Variable Sequential : Z → result Net.
Variable compute : Calculator → RSystem → option Labels → result TensorMap.
Variable keys_to_properties : TensorMap → list (Z * Z) → result TensorMap.
Variable keys_to_samples : TensorMap → string → result TensorMap.
Variable block_values : TensorMap → result (list (list F)).
Variable apply_nn : Net → list (list F) → result (list F).
Import SOAPModel.

Abbreviation soap_init := (__init__ (F := F) SoapPowerSpectrum Sequential).
Abbreviation soap_system_energy :=
  (system_energy compute keys_to_properties keys_to_samples block_values apply_nn).
Abbreviation soap_forward_loop :=
  (forward_loop compute keys_to_properties keys_to_samples block_values apply_nn).
Abbreviation soap_forward_1 :=
  (forward_1 compute keys_to_properties keys_to_samples block_values apply_nn).
Abbreviation soap_forward :=
  (forward compute keys_to_properties keys_to_samples block_values apply_nn).
Abbreviation soap_gives_here :=
  (soap_gives compute keys_to_properties keys_to_samples block_values apply_nn).
Abbreviation soap_raises_here :=
  (soap_raises compute keys_to_properties keys_to_samples block_values apply_nn).

Lemma elem_of_pair_if (b : bool) (i j : Z) (x : Z * Z) :
  x ∈ (if b then [(i, j)] else []) → b = true ∧ x = (i, j).
Proof.
  destruct b; [|by intros ?%elem_of_nil].
  by intros ->%list_elem_of_singleton.
Qed.

Lemma elem_of_ordered_pairs (species : list Z) i j :
  (i, j) ∈ ordered_pairs species ↔ i ∈ species ∧ j ∈ species ∧ i ≤ j.
Proof.
  unfold ordered_pairs. rewrite list_elem_of_bind. split.
  - intros (i' & (j' & [Hle Heq]%elem_of_pair_if & Hj)%list_elem_of_bind & Hi).
    apply bool_decide_eq_true_1 in Hle. injection Heq as -> ->. done.
  - intros (Hi & Hj & Hle). exists i. split; [|done].
    apply list_elem_of_bind. exists j. split; [|done].
    rewrite bool_decide_eq_true_2 by done. apply list_elem_of_here.
Qed.

Lemma NoDup_ordered_pairs (species : list Z) :
  NoDup species → NoDup (ordered_pairs species).
Proof.
  intros Hnd. unfold ordered_pairs. apply NoDup_bind; [| |done].
  - intros i1 i2 [a b] _ _ (j1 & [_ Heq1]%elem_of_pair_if & _)%list_elem_of_bind
      (j2 & [_ Heq2]%elem_of_pair_if & _)%list_elem_of_bind.
    congruence.
  - intros i _. apply NoDup_bind; [| |done].
    + intros j1 j2 [a b] _ _ [_ Heq1]%elem_of_pair_if [_ Heq2]%elem_of_pair_if.
      congruence.
    + intros j _. destruct (bool_decide _); [apply NoDup_singleton | apply NoDup_nil_2].
Qed.

Lemma length_between_cons_l (x : Z) (a b : list Z) :
  length (pairs_between (x :: a) b)
  = (length (filter (λ j, (x ≤ j)%Z) b) + length (pairs_between a b))%nat.
Proof.
  unfold pairs_between. rewrite bind_cons, length_app. f_equal.
  induction b as [|j b IH]; [done|].
  rewrite bind_cons, length_app, IH, filter_cons.
  by case_bool_decide; case_decide.
Qed.

Lemma length_between_cons_r (a : list Z) (x : Z) (b : list Z) :
  length (pairs_between a (x :: b))
  = (length (filter (λ i, (i ≤ x)%Z) a) + length (pairs_between a b))%nat.
Proof.
  unfold pairs_between. induction a as [|i a IH]; [done|].
  rewrite !bind_cons, !length_app, IH, filter_cons.
  case_bool_decide; case_decide; simpl; try done; lia.
Qed.

Lemma length_filter_le_ge (x : Z) (b : list Z) :
  x ∉ b →
  (length (filter (λ j, (x ≤ j)%Z) b) + length (filter (λ i, (i ≤ x)%Z) b))%nat
  = length b.
Proof.
  induction b as [|j b IH]; [done|].
  intros [Hne Hb]%not_elem_of_cons. specialize (IH Hb).
  rewrite !filter_cons. repeat case_decide; simpl; lia.
Qed.

Lemma length_ordered_pairs (species : list Z) :
  NoDup species →
  (2 * length (ordered_pairs species))%nat
  = (length species * (length species + 1))%nat.
Proof.
  change (ordered_pairs species) with (pairs_between species species).
  induction 1 as [|x l Hx Hnd IH]; [done|].
  rewrite length_between_cons_l, length_between_cons_r, !filter_cons.
  rewrite !decide_True by lia. simpl.
  pose proof (length_filter_le_ge x l Hx). nia.
Qed.

Lemma soap_init_Ok soap_parameters species offset (self : t F Calculator Net) :
  soap_init soap_parameters species offset = Ok self →
  SOAPModel.species self = species
  ∧ energy_offset self = offset
  ∧ species_pairs self = ordered_pairs species
  ∧ SoapPowerSpectrum soap_parameters = Ok (soap_calculator self)
  ∧ Sequential (n_soap soap_parameters (ordered_pairs species))
    = Ok (soap_nn self).
Proof.
  unfold __init__.
  intros (calc & Hcalc & (net & Hnet & [= <-])%bind_Ok)%bind_Ok. by simpl.
Qed.

(** X10.  For distinct species, the model holds n(n+1)/2 pairs of species,
    and its network is built for (max_angular + 1) * max_radial^2 *
    n(n+1)/2 input features. *)
Theorem soap_network_input_size soap_parameters species offset
    (self : t F Calculator Net) :
  soap_init soap_parameters species offset = Ok self →
  NoDup species →
  (2 * length (species_pairs self))%nat
  = (length species * (length species + 1))%nat
  ∧ ∃ n_in,
      Sequential n_in = Ok (soap_nn self)
      ∧ 2 * n_in
        = (max_angular soap_parameters + 1) * max_radial soap_parameters ^ 2
          * (Z.of_nat (length species) * (Z.of_nat (length species) + 1)).
Proof.
  intros (_ & _ & Hpairs & _ & Hnet)%soap_init_Ok Hnd.
  pose proof (length_ordered_pairs species Hnd) as Hlen.
  rewrite Hpairs. split; [done|].
  eexists. split; [exact Hnet|]. unfold n_soap. nia.
Qed.

(** X11.  The pairs of species of the model are the pairs (i, j) of
    species with i <= j, and when the species are distinct no pair appears
    twice. *)
Theorem soap_species_pairs soap_parameters species offset
    (self : t F Calculator Net) :
  soap_init soap_parameters species offset = Ok self →
  (∀ i j, (i, j) ∈ species_pairs self ↔ i ∈ species ∧ j ∈ species ∧ i ≤ j)
  ∧ (NoDup species → NoDup (species_pairs self)).
Proof.
  intros (_ & _ & -> & _)%soap_init_Ok. split.
  - apply elem_of_ordered_pairs.
  - apply NoDup_ordered_pairs.
Qed.

(** The loop of [forward] writes, from index [i] on, the energies of the
    systems, and leaves the other entries as they were. *)
Lemma soap_forward_loop_spec (self : t F Calculator Net) sel i systems energies :
  (i + length systems ≤ length energies)%nat →
  soap_forward_loop self sel i systems energies
  = match map_result (soap_system_energy self sel) systems with
    | Ok es => Ok (take i energies ++ es ++ drop (i + length systems) energies)
    | Err e => Err e
    end.
Proof.
  revert i energies. induction systems as [|system rest IH]; intros i energies Hlen.
  - simpl. by rewrite Nat.add_0_r, take_drop.
  - simpl in *. destruct (soap_system_energy self sel system) as [e|e]; [|done].
    rewrite bind_Ok_l, IH by (rewrite length_insert; lia).
    destruct (map_result _ rest) as [es|e']; [|done]. f_equal.
    rewrite (take_S_r _ _ e) by (apply list_lookup_insert_eq; lia).
    rewrite take_insert_ge by lia.
    rewrite drop_insert_lt by lia.
    replace (i + S (length rest))%nat with (S i + length rest)%nat by lia.
    by rewrite <- (assoc_L (++)).
Qed.

Lemma soap_forward_1_spec (self : t F Calculator Net) systems sel :
  soap_forward_1 self systems sel
  = map_result (soap_system_energy self sel) systems.
Proof.
  unfold forward_1. rewrite soap_forward_loop_spec by (by rewrite length_replicate).
  destruct (map_result _ systems) as [es|e]; [|done].
  rewrite take_0, drop_ge by (by rewrite length_replicate).
  by rewrite app_nil_r.
Qed.

Lemma map_result_length {A B : Type} (f : A → result B) l ys :
  map_result f l = Ok ys → length ys = length l.
Proof.
  revert ys. induction l as [|x l IH]; intros ys; simpl.
  - by intros [= <-].
  - destruct (f x); [|done]. destruct (map_result f l) as [ys'|]; [|done].
    intros [= <-]. simpl. by rewrite (IH ys').
Qed.

Lemma map_result_app {A B : Type} (f : A → result B) l k :
  map_result f (l ++ k)
  = match map_result f l with
    | Ok ys =>
        match map_result f k with
        | Ok zs => Ok (ys ++ zs)
        | Err e => Err e
        end
    | Err e => Err e
    end.
Proof.
  induction l as [|x l IH]; simpl.
  - by destruct (map_result f k).
  - destruct (f x); [|done]. rewrite IH.
    destruct (map_result f l); [|done]. by destruct (map_result f k).
Qed.

Lemma soap_forward_spec (self : t F Calculator Net) systems sel :
  soap_forward self systems sel
  = match map_result (soap_system_energy self sel) systems with
    | Ok es => Ok ((λ e, fadd e (energy_offset self)) <$> es)
    | Err e => Err e
    end.
Proof.
  pose proof (soap_forward_1_spec self systems sel) as Hspec.
  unfold forward_1 in Hspec. unfold forward. by rewrite Hspec.
Qed.

Lemma soap_gives_energy (self : t F Calculator Net) sel system es :
  soap_gives_here self sel system es →
  soap_system_energy self sel system = Ok (foldl fadd (of_int 0) es).
Proof.
  intros (soap & soap' & soap'' & values & H1 & H2 & H3 & H4 & H5).
  unfold system_energy.
  by rewrite H1, bind_Ok_l, H2, bind_Ok_l, H3, bind_Ok_l, H4, bind_Ok_l, H5.
Qed.

Lemma soap_raises_energy (self : t F Calculator Net) sel system e :
  soap_raises_here self sel system e →
  soap_system_energy self sel system = Err e.
Proof.
  unfold system_energy.
  intros [H1|(soap & H1 & Hr)]; rewrite H1; [done|]. rewrite bind_Ok_l.
  destruct Hr as [H2|(soap' & H2 & Hr)]; rewrite H2; [done|]. rewrite bind_Ok_l.
  destruct Hr as [H3|(soap'' & H3 & Hr)]; rewrite H3; [done|]. rewrite bind_Ok_l.
  destruct Hr as [H4|(values & H4 & H5)]; rewrite H4; [done|].
  by rewrite bind_Ok_l, H5.
Qed.

Lemma map_result_gives (self : t F Calculator Net) sel systems per_atom :
  Forall2 (soap_gives_here self sel) systems per_atom →
  map_result (soap_system_energy self sel) systems
  = Ok (foldl fadd (of_int 0) <$> per_atom).
Proof.
  induction 1 as [|system es systems per_atom Hes _ IH]; [done|].
  simpl. by rewrite (soap_gives_energy _ _ _ _ Hes), IH.
Qed.


(** X13.  A batch is evaluated as its parts: [forward] on the systems
    [xs ++ ys] returns the energies of [xs] followed by those of [ys], or
    raises what the first failing part raises. *)
Theorem soap_forward_batch (self : t F Calculator Net) xs ys sel :
  soap_forward self (xs ++ ys) sel
  = match soap_forward self xs sel with
    | Ok a =>
        match soap_forward self ys sel with
        | Ok b => Ok (a ++ b)
        | Err e => Err e
        end
    | Err e => Err e
    end.
Proof.
  rewrite !soap_forward_spec, map_result_app.
  destruct (map_result _ xs) as [a|e]; [|done].
  destruct (map_result _ ys) as [b|e]; [|done].
  by rewrite fmap_app.
Qed.

Abbreviation soap_wrapper_forward conv :=
  (ExportWrapper.forward conv
     (soap_as_learned_model compute keys_to_properties keys_to_samples
        block_values apply_nn)).

End Soap.

(** ** The training cell *)

Section TrainingCell.
Context {St : Type}.
Variable epoch_body : Z → St → St.
Import Training.

Lemma default_last_cons (a b x : Z) (l : list Z) :
  default a (last (x :: l)) = default b (last (x :: l)).
Proof. revert x. induction l as [|y l IH]; intros x; [done | apply (IH y)]. Qed.

Lemma for_range_foldl (l : list Z) (st : St) (epoch : Z) :
  foldl (λ s e, (epoch_body e s.1, e)) (st, epoch) l
  = (foldl (λ st e, epoch_body e st) st l, default epoch (last l)).
Proof.
  revert st epoch. induction l as [|e l IH]; intros st epoch; [done|].
  simpl. rewrite IH. f_equal. destruct l as [|x l]; [done|].
  apply (default_last_cons e epoch x l).
Qed.

Lemma last_seqZ (m n : Z) : 0 < n → last (seqZ m n) = Some (m + n - 1).
Proof.
  intros Hn. replace n with ((n - 1) + 1) at 1 by lia.
  rewrite seqZ_app by lia. change (seqZ (m + (n - 1)) 1) with [m + (n - 1)].
  rewrite last_snoc. f_equal. lia.
Qed.

Lemma training_cell_spec (n : Z) (st : St) (epoch : Z) :
  0 < n →
  training_cell epoch_body n (st, epoch)
  = (foldl (λ st e, epoch_body e st) st (seqZ (epoch + 1) n), epoch + n).
Proof.
  intros Hn. unfold training_cell, for_range. simpl.
  replace (epoch + 1 + n - (epoch + 1)) with n by lia.
  rewrite for_range_foldl, last_seqZ by done. simpl. f_equal. lia.
Qed.

(** X16.  Running the training cell [k] times in a row, from [epoch = -1],
    is one loop over the epochs 0, ..., k*n - 1: the body is run once for
    each of them, in order, and [epoch] is left at k*n - 1. *)
Theorem training_cells_continue_the_epochs (n : Z) (k : nat) (st : St) :
  0 < n →
  run_cells epoch_body n k (st, -1)
  = (foldl (λ st e, epoch_body e st) st (seqZ 0 (Z.of_nat k * n)),
     Z.of_nat k * n - 1).
Proof.
  intros Hn. unfold run_cells. induction k as [|k IH]; [done|].
  simpl Nat.iter. rewrite IH, training_cell_spec by done.
  replace (Z.of_nat k * n - 1 + 1) with (0 + Z.of_nat k * n) by lia.
  replace (Z.of_nat (S k) * n) with (Z.of_nat k * n + n) by lia.
  rewrite (seqZ_app 0) by lia. rewrite foldl_app. f_equal. lia.
Qed.
End TrainingCell.

(** ** The further properties on concrete inputs *)

Section MoreConcrete.
Import LennardJones Examples MoreExamples.

(** X2, on the two species 1 and 6. *)
Lemma table_keys_are_the_species_witness :
  ∃ self,
    __init__ 2%float parameters = Ok self
    ∧ dom (_lj_params self) = dom parameters
    ∧ ∀ i row, _lj_params self !! i = Some row → dom row = dom parameters.
Proof.
  eexists. compute_first Hinit.
  exact (table_keys_are_the_species 2%float parameters _ Hinit).
Defined.

(** X3, with the cutoff 0. *)
Lemma zero_cutoff_builds_nothing_witness :
  feqb 0%float (of_int 0) = true
  ∧ parameters ≠ ∅
  ∧ (__init__ 0%float parameters = Err ValueError
     ∨ __init__ 0%float parameters = Err ZeroDivisionError).
Proof.
  assert (Hne : parameters ≠ ∅).
  { intros Heq. apply (f_equal (lookup 1)) in Heq. vm_compute in Heq. discriminate. }
  split; [reflexivity|]. split; [exact Hne|].
  exact (zero_cutoff_builds_nothing 0%float parameters eq_refl Hne).
Defined.

(** X4, with epsilons -1 and 1. *)
Lemma bad_pair_builds_nothing_witness :
  mixed_sign_parameters !! 1 = Some (P 1 (-1))
  ∧ mixed_sign_parameters !! 6 = Some (P 1 1)
  ∧ fltb (fmul (-1) 1)%float (of_int 0) = true
  ∧ is_ok (__init__ 2%float mixed_sign_parameters) = false.
Proof.
  split; [vm_compute; reflexivity|]. split; [vm_compute; reflexivity|].
  split; [reflexivity|].
  exact (bad_pair_builds_nothing 2%float mixed_sign_parameters 1 6 (P 1 (-1)) (P 1 1)
           eq_refl eq_refl (or_introl eq_refl)).
Defined.

(** X5, on the two atoms of species 1 and 6. *)
Lemma supported_systems_are_evaluated_witness :
  ∃ self,
    __init__ 2%float parameters = Ok self
    ∧ is_Some (outputs run_energy !! "energy"%string)
    ∧ (∀ o, o ∈ requested_neighbors_lists self →
            get_neighbors_list dimer o = Ok [pr 0 1 (0, 0, 0); pr 0 0 (1, 0, 0)])
    ∧ Forall (λ a, is_Some (parameters !! a_species a)) (atoms dimer)
    ∧ Forall (λ p, - 2 ≤ first_atom p < 2 ∧ - 2 ≤ second_atom p < 2)
        [pr 0 1 (0, 0, 0); pr 0 0 (1, 0, 0)]
    ∧ ∃ E, forward self dimer run_energy
           = Ok {[ "energy"%string := energy_block E ]}.
Proof.
  eexists. compute_first Hinit.
  assert (Hspecies : Forall (λ a, is_Some (parameters !! a_species a)) (atoms dimer)).
  { repeat (constructor; [eexists; vm_compute; reflexivity|]). constructor. }
  assert (Hpairs : Forall (λ p, - 2 ≤ first_atom p < 2 ∧ - 2 ≤ second_atom p < 2)
                     [pr 0 1 (0, 0, 0); pr 0 0 (1, 0, 0)]).
  { repeat (constructor; [simpl; lia|]). constructor. }
  split; [exact energy_requested|].
  split; [intros o _; reflexivity|].
  split; [exact Hspecies|]. split; [exact Hpairs|].
  exact (supported_systems_are_evaluated 2%float parameters _ dimer run_energy
           [pr 0 1 (0, 0, 0); pr 0 0 (1, 0, 0)] Hinit energy_requested
           (λ o _, eq_refl) Hspecies Hpairs).
Defined.

(** X6, on a second pair whose second atom is atom 5 of two. *)
Lemma atom_out_of_range_is_IndexError_witness :
  ∃ self,
    __init__ 2%float parameters = Ok self
    ∧ is_Some (outputs run_energy !! "energy"%string)
    ∧ get_neighbors_list stray_index (_neighbors self)
      = Ok ([pr 0 1 (0, 0, 0)] ++ pr 0 5 (0, 0, 0) :: [])
    ∧ Forall (λ q, is_ok (pair_energy self stray_index q) = true)
        [pr 0 1 (0, 0, 0)]
    ∧ tensor_index (atoms stray_index) 0 = Ok (at_ 1 0 0 0)
    ∧ is_Some (_lj_params self !! 1)
    ∧ 2 ≤ 5
    ∧ forward self stray_index run_energy = Err IndexError.
Proof.
  eexists. split; [vm_compute; reflexivity|].
  split; [exact energy_requested|]. split; [reflexivity|].
  match goal with |- Forall ?P ?l ∧ _ => assert (Hpre : Forall P l) end.
  { apply Forall_singleton. vm_compute; reflexivity. }
  split; [exact Hpre|]. split; [reflexivity|].
  match goal with |- is_Some ?x ∧ _ => assert (Hrow : is_Some x) end.
  { eexists. vm_compute. reflexivity. }
  split; [exact Hrow|]. split; [lia|].
  refine (atom_out_of_range_is_IndexError _ stray_index run_energy
            [pr 0 1 (0, 0, 0)] (pr 0 5 (0, 0, 0)) [] energy_requested eq_refl Hpre _).
  right. split; [exists (at_ 1 0 0 0); split; [reflexivity | exact Hrow]|].
  right. simpl. lia.
Defined.

(** X7, on the pair (-2, -1) of two atoms, which is the pair (0, 1). *)
Lemma negative_indices_count_from_the_end_witness :
  ∃ self,
    __init__ 2%float parameters = Ok self
    ∧ 0 ≤ 0 < Z.of_nat (length (atoms dimer))
    ∧ 0 ≤ 1 < Z.of_nat (length (atoms dimer))
    ∧ pair_energy self dimer (pr (0 - 2) (1 - 2) (0, 0, 0))
      = pair_energy self dimer (pr 0 1 (0, 0, 0)).
Proof.
  eexists. split; [vm_compute; reflexivity|].
  assert (H0 : 0 ≤ 0 < Z.of_nat (length (atoms dimer))) by (simpl; lia).
  assert (H1 : 0 ≤ 1 < Z.of_nat (length (atoms dimer))) by (simpl; lia).
  split; [exact H0|]. split; [exact H1|].
  exact (negative_indices_count_from_the_end _ dimer 0 1 (0, 0, 0) H0 H1).
Defined.

(** X8, on a system whose second pair has a species without parameters,
    with a learned model that counts its calls. *)
Lemma baseline_failure_skips_learned_model_witness :
  ∃ lj,
    __init__ 2%float parameters = Ok lj
    ∧ forward lj stranger_second run_energy = Err (KeyError (IntKey 9))
    ∧ ExportWrapper.forward id (nn_constant 1)
        (ExportWrapper.__init__ lj 0%nat) stranger_second run_energy
      = (Err (KeyError (IntKey 9)), ExportWrapper.__init__ lj 0%nat).
Proof.
  eexists. split; [vm_compute; reflexivity|].
  match goal with |- ?P ∧ _ => assert (Hlj : P) by (vm_compute; reflexivity) end.
  split; [exact Hlj|].
  exact (baseline_failure_skips_learned_model id (nn_constant 1)
           (ExportWrapper.__init__ _ 0%nat) stranger_second run_energy _ Hlj).
Defined.

(** X9, with the energy and the forces requested: the energy alone is
    returned. *)
Lemma only_energy_is_returned_witness :
  ∃ lj,
    __init__ 2%float parameters = Ok lj
    ∧ outputs run_energy_and_forces !! "forces"%string ≠ None
    ∧ forward lj dimer run_energy_and_forces
      = Ok {[ "energy"%string := energy_block 0x1.da09d03ep+7%float ]}
    ∧ dom ({[ "energy"%string := energy_block 0x1.da09d03ep+7%float ]}
             : gmap string (TensorBlock float))
      = dom (outputs run_energy_and_forces) ∩ {[ "energy"%string ]}
    ∧ (ExportWrapper.forward id (nn_constant 1)
         (ExportWrapper.__init__ lj 0%nat) dimer run_energy_and_forces).1
      = Ok {[ "energy"%string := energy_block (fadd 0x1.da09d03ep+7 1)%float ]}
    ∧ dom ({[ "energy"%string := energy_block (fadd 0x1.da09d03ep+7 1)%float ]}
             : gmap string (TensorBlock float))
      = dom (outputs run_energy_and_forces) ∩ {[ "energy"%string ]}.
Proof.
  eexists. split; [vm_compute; reflexivity|].
  split; [vm_compute; discriminate|].
  match goal with |- ?P ∧ _ => assert (Hlj : P) by (vm_compute; reflexivity) end.
  split; [exact Hlj|].
  match goal with |- _ ∧ ?P ∧ _ => assert (Hw : P) by (vm_compute; reflexivity) end.
  match type of Hlj with
  | forward ?lj _ _ = _ =>
      pose proof (@only_energy_is_returned float float64 (System float) nat
                    id (nn_constant 1) lj
                    (ExportWrapper.__init__ lj 0%nat) dimer
                    run_energy_and_forces
                    {[ "energy"%string := energy_block 0x1.da09d03ep+7%float ]}
                    {[ "energy"%string :=
                         energy_block (fadd 0x1.da09d03ep+7 1)%float ]})
        as Hboth
  end.
  split; [exact (proj1 Hboth Hlj)|]. split; [exact Hw|]. exact (proj2 Hboth Hw).
Defined.

(** X14, with a learned model that answers 1. *)
Lemma composite_is_plain_wrapper_plus_baseline_witness :
  ∃ lj,
    __init__ 2%float parameters = Ok lj
    ∧ forward lj dimer run_energy
      = Ok {[ "energy"%string := energy_block 0x1.da09d03ep+7%float ]}
    ∧ ExportWrapper1.forward id (nn_constant 1)
        {| ExportWrapper1.model := 0%nat |} dimer run_energy
      = (Ok {[ "energy"%string := energy_block 1%float ]},
         {| ExportWrapper1.model := 1%nat |})
    ∧ ExportWrapper.forward id (nn_constant 1)
        {| ExportWrapper.lj := lj; ExportWrapper.nn_model := 0%nat |}
        dimer run_energy
      = (Ok ((λ b, energy_block (fadd 0x1.da09d03ep+7%float (values b)))
               <$> {[ "energy"%string := energy_block 1%float ]}),
         {| ExportWrapper.lj := lj; ExportWrapper.nn_model := 1%nat |}).
Proof.
  eexists. split; [vm_compute; reflexivity|].
  match goal with |- ?P ∧ _ => assert (Hlj : P) by (vm_compute; reflexivity) end.
  split; [exact Hlj|]. split; [reflexivity|].
  exact (composite_is_plain_wrapper_plus_baseline id (nn_constant 1) _ 0%nat 1%nat
           dimer run_energy _ _ Hlj eq_refl).
Defined.
(** X10, for the species 1, 6, 8 with max_radial = max_angular = 6, as in
    the notebooks: 6 pairs of species and 7 * 36 * 6 = 1512 features. *)
Lemma soap_network_input_size_witness :
  SOAPModel.__init__ toy_SoapPowerSpectrum toy_Sequential toy_parameters
    [1; 6; 8] 0.5%float = Ok toy_model
  ∧ NoDup [1; 6; 8]
  ∧ (2 * length (SOAPModel.species_pairs toy_model))%nat = (3 * (3 + 1))%nat
  ∧ ∃ n_in, toy_Sequential n_in = Ok (SOAPModel.soap_nn toy_model)
            ∧ 2 * n_in = (6 + 1) * 6 ^ 2 * (3 * (3 + 1)).
Proof.
  assert (Hnd : NoDup [1; 6; 8]).
  { repeat (apply NoDup_cons_2;
              [rewrite ?elem_of_cons, elem_of_nil; lia|]). apply NoDup_nil_2. }
  split; [reflexivity|]. split; [exact Hnd|].
  exact (soap_network_input_size toy_SoapPowerSpectrum toy_Sequential
           toy_parameters [1; 6; 8] 0.5%float toy_model eq_refl Hnd).
Defined.

(** X11, for the species 1, 6, 8. *)
Lemma soap_species_pairs_witness :
  SOAPModel.__init__ toy_SoapPowerSpectrum toy_Sequential toy_parameters
    [1; 6; 8] 0.5%float = Ok toy_model
  ∧ SOAPModel.species_pairs toy_model
    = [(1, 1); (1, 6); (1, 8); (6, 6); (6, 8); (8, 8)]
  ∧ (∀ i j, (i, j) ∈ SOAPModel.species_pairs toy_model
            ↔ i ∈ [1; 6; 8] ∧ j ∈ [1; 6; 8] ∧ i ≤ j)
  ∧ (NoDup [1; 6; 8] → NoDup (SOAPModel.species_pairs toy_model)).
Proof.
  split; [reflexivity|]. split; [reflexivity|].
  exact (soap_species_pairs toy_SoapPowerSpectrum toy_Sequential
           toy_parameters [1; 6; 8] 0.5%float toy_model eq_refl).
Defined.



(** X16, with cells of 15 epochs run twice: the epochs 0 to 29. *)
Lemma training_cells_continue_the_epochs_witness :
  0 < 15
  ∧ Training.run_cells record_epoch 15 2 ([], -1) = (seqZ 0 (2 * 15), 2 * 15 - 1).
Proof.
  split; [lia|].
  exact (training_cells_continue_the_epochs record_epoch 15 2 [] eq_refl).
Defined.
End MoreConcrete.
